(** * zfs-backup-manager: retention policy, snapshot catalog and scheduler

    A shallow embedding of [src/zfs_backup_manager/__init__.py] and
    [types.py].  Python [int] is [Z], [str] is [string], [List] is
    [list], [set] is stdpp's [gset], the [defaultdict(list)] returned by
    [get_sorted_snapshots] is a [gmap string (list date)] read with the
    total lookup [!!!] (whose default is the empty list).  The effects of
    [main] (logging, the subprocess calls, the exceptions that escape) are
    threaded through a small state-and-exception monad over an abstract
    storage backend. *)

From Stdlib Require Import ZArith Ascii String List Sorted Permutation Lia.
From stdpp Require Import base decidable countable gmap sets list strings sorting.

Local Open Scope string_scope.
Local Open Scope Z_scope.

(** ** Calendar dates ([datetime.date]) *)

Record date : Type := mkdate { year : Z; month : Z; day : Z }.

Global Instance date_eq_dec : EqDecision date.
Proof. solve_decision. Defined.

Definition date_to_triple (d : date) : Z * Z * Z := (year d, month d, day d).
Definition date_of_triple (t : Z * Z * Z) : date := mkdate t.1.1 t.1.2 t.2.

Lemma date_of_to_triple (d : date) : date_of_triple (date_to_triple d) = d.
Proof. by destruct d. Qed.

Global Instance date_countable : Countable date :=
  inj_countable' date_to_triple date_of_triple date_of_to_triple.

(** [datetime._is_leap] *)
Definition _is_leap (y : Z) : bool :=
  (y mod 4 =? 0) && (negb (y mod 100 =? 0) || (y mod 400 =? 0)).

(** [datetime._DAYS_IN_MONTH], with the February of a leap year. *)
Definition _days_in_month (y m : Z) : Z :=
  if (m =? 2) && _is_leap y then 29
  else nth (Z.to_nat m) [-1; 31; 28; 31; 30; 31; 30; 31; 31; 30; 31; 30; 31] (-1).

(** [datetime._DAYS_BEFORE_MONTH] *)
Definition _DAYS_BEFORE_MONTH : list Z :=
  [-1; 0; 31; 59; 90; 120; 151; 181; 212; 243; 273; 304; 334].

Definition _days_before_year (y : Z) : Z :=
  let y := y - 1 in y * 365 + y / 4 - y / 100 + y / 400.

Definition _days_before_month (y m : Z) : Z :=
  nth (Z.to_nat m) _DAYS_BEFORE_MONTH (-1)
  + (if (2 <? m) && _is_leap y then 1 else 0).

Definition _ymd2ord (y m d : Z) : Z :=
  _days_before_year y + _days_before_month y m + d.

Definition toordinal (d : date) : Z := _ymd2ord (year d) (month d) (day d).

(** [date.isoweekday]: [self.toordinal() % 7 or 7], Monday is 1. *)
Definition isoweekday (d : date) : Z :=
  let r := toordinal d mod 7 in if r =? 0 then 7 else r.

(** The range check of the [date] constructor ([_check_date_fields]). *)
Definition valid_date (d : date) : bool :=
  (1 <=? year d) && (year d <=? 9999) && (1 <=? month d) && (month d <=? 12)
  && (1 <=? day d) && (day d <=? _days_in_month (year d) (month d)).

(** [date.__ge__]: comparison of the triples (year, month, day). *)
Definition date_ge (a b : date) : Prop :=
  year b < year a
  \/ (year b = year a /\ (month b < month a
                          \/ (month b = month a /\ day b <= day a))).

Global Instance date_ge_dec (a b : date) : Decision (date_ge a b).
Proof. unfold date_ge. apply _. Defined.

(** ** Python slicing [l[:k]] *)

(** A negative stop counts from the end; a stop past the end stops at the
    end. *)
Definition slice_to {A} (l : list A) (k : Z) : list A :=
  if 0 <=? k then take (Z.to_nat k) l
  else take (Z.to_nat (Z.of_nat (length l) + k)) l.

(** ** Configuration ([types.py]) *)

Record ValidatedDatasetEntry : Type := mkValidated {
  v_name : string;
  v_recursive : bool;
  v_keep_days : Z;
  v_keep_weeks : Z;
  v_keep_months : Z;
  v_dow : Z;
  v_dom : Z
}.

(** ** The retention computation of [main] (lines 138-151) *)

Definition keep_daily_set (dc : ValidatedDatasetEntry) (dataset_snapshots : list date)
  : gset date :=
  list_to_set (slice_to dataset_snapshots (v_keep_days dc)).

Definition keep_weekly_set (dc : ValidatedDatasetEntry) (dataset_snapshots : list date)
  : gset date :=
  list_to_set
    (slice_to (filter (fun snapshot => isoweekday snapshot = v_dow dc) dataset_snapshots)
              (v_keep_weeks dc)).

Definition keep_monthly_set (dc : ValidatedDatasetEntry) (dataset_snapshots : list date)
  : gset date :=
  list_to_set
    (slice_to (filter (fun snapshot => day snapshot = v_dom dc) dataset_snapshots)
              (v_keep_months dc)).

Definition keep_set (dc : ValidatedDatasetEntry) (dataset_snapshots : list date)
  : gset date :=
  keep_daily_set dc dataset_snapshots ∪ keep_weekly_set dc dataset_snapshots
  ∪ keep_monthly_set dc dataset_snapshots.

(** The set the [for] loop of line 151 iterates over. *)
Definition delete_set (dc : ValidatedDatasetEntry) (dataset_snapshots : list date)
  : gset date :=
  list_to_set dataset_snapshots ∖ keep_set dc dataset_snapshots.

(** ** String helpers ([str.splitlines], [str.split], [str.format])

    Strings are sequences of ASCII characters; the line boundaries and the
    white space are the ASCII ones Python recognises. *)

Definition snoc (s : string) (c : ascii) : string := s +:+ String c "".

Definition is_linebreak (c : ascii) : bool :=
  let n := nat_of_ascii c in
  ((10 <=? n) && (n <=? 13) || (28 <=? n) && (n <=? 30))%nat.

Definition is_space (c : ascii) : bool :=
  let n := nat_of_ascii c in
  ((9 <=? n) && (n <=? 13) || (28 <=? n) && (n <=? 32))%nat.

Definition CR : ascii := ascii_of_nat 13.
Definition LF : ascii := ascii_of_nat 10.

(** [str.splitlines()]: a carriage return followed by a line feed is one
    boundary; no empty line is reported after the last boundary. *)
Fixpoint splitlines_from (cur : string) (s : string) : list string :=
  match s with
  | EmptyString => if decide (cur = "") then [] else [cur]
  | String c s' =>
      if is_linebreak c then
        match s' with
        | String c' s'' =>
            if decide (c = CR /\ c' = LF) then cur :: splitlines_from "" s''
            else cur :: splitlines_from "" s'
        | EmptyString => [cur]
        end
      else splitlines_from (snoc cur c) s'
  end.

Definition splitlines (s : string) : list string := splitlines_from "" s.

(** [str.split()]: the maximal runs of characters that are not white space. *)
Fixpoint split_from (cur : string) (s : string) : list string :=
  match s with
  | EmptyString => if decide (cur = "") then [] else [cur]
  | String c s' =>
      if is_space c then
        (if decide (cur = "") then split_from "" s' else cur :: split_from "" s')
      else split_from (snoc cur c) s'
  end.

Definition split (s : string) : list string := split_from "" s.

(** [str.split(sep)] for a separator of one character. *)
Fixpoint split_on_from (sep : ascii) (cur : string) (s : string) : list string :=
  match s with
  | EmptyString => [cur]
  | String c s' =>
      if decide (c = sep) then cur :: split_on_from sep "" s'
      else split_on_from sep (snoc cur c) s'
  end.

Definition split_on (sep : ascii) (s : string) : list string := split_on_from sep "" s.

(** ** [datetime.strptime(timestamp, prefix + "%Y%m%d")]

    The format is compiled to a regular expression, matched with
    [IGNORECASE] from the start of the data; the first match in
    backtracking order is taken, data left over is a [ValueError], and so
    is a date out of range.  The prefix is taken as literal text: the
    model is that of the call for a prefix without a percent sign
    ([literal_prefix] below).  A percent sign in the prefix would be read
    by [strptime] as a directive (a doubled one stands for one percent
    sign, a further year, month or day directive is rejected by the
    regular expression compiler with an error that [except ValueError]
    does not catch); that is outside this model. *)

Definition lower (c : ascii) : ascii :=
  let n := nat_of_ascii c in
  if ((65 <=? n) && (n <=? 90))%nat then ascii_of_nat (n + 32) else c.

Fixpoint match_prefix (prefix data : string) : option string :=
  match prefix, data with
  | EmptyString, _ => Some data
  | String p prefix', String c data' =>
      if decide (lower p = lower c) then match_prefix prefix' data' else None
  | String _ _, EmptyString => None
  end.

Definition digit (c : ascii) : option Z :=
  let n := nat_of_ascii c in
  if ((48 <=? n) && (n <=? 57))%nat then Some (Z.of_nat n - 48) else None.

Definition in_range (lo hi : Z) (c : ascii) : option Z :=
  match digit c with
  | Some v => if (lo <=? v) && (v <=? hi) then Some v else None
  | None => None
  end.

(** [(?P<Y>\d\d\d\d)] *)
Definition re_Y (s : string) : option (Z * string) :=
  match s with
  | String a (String b (String c (String d r))) =>
      match digit a, digit b, digit c, digit d with
      | Some a, Some b, Some c, Some d => Some (a * 1000 + b * 100 + c * 10 + d, r)
      | _, _, _, _ => None
      end
  | _ => None
  end.

(** One alternative made of two character classes, and one made of a
    single class; each matches in at most one way. *)
Definition two_chars (f g : ascii -> option Z) (s : string) : list (Z * string) :=
  match s with
  | String a (String b r) =>
      match f a, g b with
      | Some x, Some y => [(x * 10 + y, r)]
      | _, _ => []
      end
  | _ => []
  end.

Definition one_char (f : ascii -> option Z) (s : string) : list (Z * string) :=
  match s with
  | String a r => match f a with Some x => [(x, r)] | None => [] end
  | _ => []
  end.

Definition blank (c : ascii) : option Z :=
  if decide (c = " "%char) then Some 0 else None.

(** [(?P<m>1[0-2]|0[1-9]|[1-9])], the matches in backtracking order. *)
Definition re_m (s : string) : list (Z * string) :=
  two_chars (in_range 1 1) (in_range 0 2) s
  ++ two_chars (in_range 0 0) (in_range 1 9) s
  ++ one_char (in_range 1 9) s.

(** [(?P<d>3[0-1]|[1-2]\d|0[1-9]|[1-9]| [1-9])] *)
Definition re_d (s : string) : list (Z * string) :=
  two_chars (in_range 3 3) (in_range 0 1) s
  ++ two_chars (in_range 1 2) digit s
  ++ two_chars (in_range 0 0) (in_range 1 9) s
  ++ one_char (in_range 1 9) s
  ++ two_chars blank (in_range 1 9) s.

(** The first month alternative after which a day matches, with the
    first day alternative there. *)
Fixpoint first_md (ms : list (Z * string)) : option (Z * Z * string) :=
  match ms with
  | [] => None
  | (m, r) :: ms' =>
      match re_d r with
      | (d, r') :: _ => Some (m, d, r')
      | [] => first_md ms'
      end
  end.

Definition strptime_Ymd (prefix timestamp : string) : option date :=
  match match_prefix prefix timestamp with
  | None => None
  | Some r0 =>
      match re_Y r0 with
      | None => None
      | Some (y, r1) =>
          match first_md (re_m r1) with
          | Some (m, d, EmptyString) =>
              let parsed := mkdate y m d in
              if valid_date parsed then Some parsed else None
          | _ => None
          end
      end
  end.

(** The character of the last decimal digit of [n]. *)
Definition digit_char (n : Z) : ascii := ascii_of_nat (48 + Z.to_nat (n mod 10)).

(** [date.strftime("%Y%m%d")], for years of four digits (from 1000 on).
    For an earlier year the C library decides whether the year is padded
    with zeros; the model pads, so a statement about the text of a name
    is one about years from 1000 on. *)
Definition strftime_Ymd (d : date) : string :=
  String (digit_char (year d / 1000)) (String (digit_char (year d / 100))
  (String (digit_char (year d / 10)) (String (digit_char (year d))
  (String (digit_char (month d / 10)) (String (digit_char (month d))
  (String (digit_char (day d / 10)) (String (digit_char (day d)) ""))))))).

(** ** Configuration as loaded from the TOML file ([types.py]) *)

Record DatasetEntry : Type := mkEntry {
  de_name : option string;
  de_recursive : option bool;
  de_keep_days : option Z;
  de_keep_weeks : option Z;
  de_keep_months : option Z;
  de_dow : option Z;
  de_dom : option Z
}.

Record Config : Type := mkConfig {
  c_dom : option Z;
  c_dow : option Z;
  c_keep_days : option Z;
  c_keep_weeks : option Z;
  c_keep_months : option Z;
  c_recursive : option bool;
  c_datasets : option (list DatasetEntry);
  c_snapshot_prefix : option string;
  c_logging : option string
}.

Definition DEFAULT_DOM : Z := 1.
Definition DEFAULT_DOW : Z := 7.
Definition DEFAULT_RECURSIVE : bool := true.
Definition DEFAULT_KEEP_DAYS : Z := 0.
Definition DEFAULT_KEEP_WEEKS : Z := 0.
Definition DEFAULT_KEEP_MONTHS : Z := 0.

(** The exceptions the program raises or lets through. *)
Inductive exn : Type :=
  | IndexError
  | ValueError
  | CalledProcessError
  | RuntimeError (i : nat).

Global Instance exn_eq_dec : EqDecision exn.
Proof. solve_decision. Defined.

(** [dict.get(key, default)] *)
Definition get {A} (o : option A) (dflt : A) : A :=
  match o with Some a => a | None => dflt end.

(** The loop of [get_dataset_configs], from entry number [i] on. *)
Fixpoint get_dataset_configs_from (config : Config) (i : nat) (ds : list DatasetEntry)
  : exn + list ValidatedDatasetEntry :=
  match ds with
  | [] => inr []
  | dataset :: ds' =>
      match de_name dataset with
      | None => inl (RuntimeError i)
      | Some dataset_name =>
          let validated_dict :=
            {| v_name := dataset_name;
               v_recursive := get (de_recursive dataset) (get (c_recursive config) DEFAULT_RECURSIVE);
               v_dom := get (de_dom dataset) (get (c_dom config) DEFAULT_DOM);
               v_dow := get (de_dow dataset) (get (c_dow config) DEFAULT_DOW);
               v_keep_days := get (de_keep_days dataset) (get (c_keep_days config) DEFAULT_KEEP_DAYS);
               v_keep_weeks := get (de_keep_weeks dataset) (get (c_keep_weeks config) DEFAULT_KEEP_WEEKS);
               v_keep_months := get (de_keep_months dataset) (get (c_keep_months config) DEFAULT_KEEP_MONTHS) |} in
          match get_dataset_configs_from config (S i) ds' with
          | inl exc => inl exc
          | inr ret_val => inr (validated_dict :: ret_val)
          end
      end
  end.

Definition get_dataset_configs (config : Config) : exn + list ValidatedDatasetEntry :=
  get_dataset_configs_from config 0 (get (c_datasets config) []).

(** ** The snapshot catalog ([get_sorted_snapshots]) *)

(** Lines 39-40: the first field of a line, split at the at-sign into
    exactly two parts. *)
Definition line_entry (line : string) : exn + (string * string) :=
  match split line with
  | [] => inl IndexError
  | part0 :: _ =>
      match split_on "@" part0 with
      | [dataset; timestamp] => inr (dataset, timestamp)
      | _ => inl ValueError
      end
  end.

(** Lines 42-45 for one (dataset, timestamp) pair. *)
Definition add_entry (prefix : string) (ret_val : gmap string (list date))
    (e : string * string) : gmap string (list date) :=
  match strptime_Ymd prefix e.2 with
  | Some parsed_timestamp => <[e.1 := ((ret_val !!! e.1) ++ [parsed_timestamp])%list]> ret_val
  | None => ret_val
  end.

(** The loop of lines 38-45. *)
Fixpoint scan_lines (prefix : string) (lines : list string)
    (ret_val : gmap string (list date)) : exn + gmap string (list date) :=
  match lines with
  | [] => inr ret_val
  | line :: lines' =>
      match line_entry line with
      | inl exc => inl exc
      | inr e => scan_lines prefix lines' (add_entry prefix ret_val e)
      end
  end.

(** [list.sort(reverse=True)] on dates. *)
Definition sort_reverse (l : list date) : list date := merge_sort date_ge l.

(** [get_sorted_snapshots] from the output of [zfs list -t snapshot]. *)
Definition sorted_snapshots_of (config : Config) (stdout : string)
  : exn + gmap string (list date) :=
  if decide (stdout = "no datasets available") then inr ∅
  else
    match scan_lines (get (c_snapshot_prefix config) "") (tail (splitlines stdout)) ∅ with
    | inl exc => inl exc
    | inr ret_val => inr (sort_reverse <$> ret_val)
    end.

(** ** The due test of [main] (lines 108-112) *)

Definition is_due (dc : ValidatedDatasetEntry) (today : date) : bool :=
  bool_decide (v_keep_days dc > 0)
  || (bool_decide (v_keep_weeks dc > 0) && bool_decide (isoweekday today = v_dow dc))
  || (bool_decide (v_keep_months dc > 0) && bool_decide (day today = v_dom dc)).

(** ["{}@{}{}".format(name, prefix, date.strftime("%Y%m%d"))] *)
Definition snapshot_name (config : Config) (dc : ValidatedDatasetEntry) (d : date) : string :=
  v_name dc +:+ "@" +:+ get (c_snapshot_prefix config) "" +:+ strftime_Ymd d.

(** [cmd = ["zfs", verb, name]], with ["-r"] inserted at index 2 when
    recursive. *)
Definition zfs_cmd (verb : string) (dc : ValidatedDatasetEntry) (name : string) : list string :=
  if v_recursive dc then ["zfs"; verb; "-r"; name] else ["zfs"; verb; name].

Definition list_cmd : list string := ["zfs"; "list"; "-t"; "snapshot"].

(** ** Effects: log records, subprocess calls, exceptions *)

Inductive level : Type := DEBUG | INFO | WARNING | ERROR | CRITICAL.

Inductive message : Type :=
  | ZfsNotFound
  | Raised (exc : exn)
  | ParsedConfigs (dataset_configs : list ValidatedDatasetEntry)
  | NoSnapshotScheduled (name : string)
  | AlreadyExists (snapshot : string)
  | Creating (snapshot : string)
  | Destroying (snapshot : string)
  | RunningCommand (cmd : list string)
  | CommandFailed.

(** What a run does, in order: a log record, the listing query, or a
    snapshot/destroy command with whether it succeeded. *)
Inductive event : Type :=
  | Log (lvl : level) (msg : message)
  | Listed
  | Exec (cmd : list string) (ok : bool).

(** The storage backend behind [subprocess.check_output]: the listing is
    the text printed by [zfs list -t snapshot] ([None] when the command
    exits with an error), a command returns whether it succeeded and the
    storage it leaves. *)
Class Backend (World : Type) : Type := {
  zfs_list : World -> option string;
  zfs_run : list string -> World -> bool * World
}.

Section Scheduler.
Context {World : Type} `{Backend World}.

(** A computation reads and changes the storage, appends events, and
    ends in a value or in an exception. *)
Definition M (A : Type) : Type := World -> (exn + A) * (World * list event).

Definition ret {A} (a : A) : M A := fun w => (inr a, (w, [])).

Definition bind {A B} (m : M A) (k : A -> M B) : M B := fun w =>
  match m w with
  | (inl exc, out) => (inl exc, out)
  | (inr a, (w1, t1)) =>
      let '(r, (w2, t2)) := k a w1 in (r, (w2, (t1 ++ t2)%list))
  end.

Definition log (lvl : level) (msg : message) : M unit := fun w => (inr tt, (w, [Log lvl msg])).

(** What [get_sorted_snapshots] computes on the storage [w]. *)
Definition listing (config : Config) (w : World) : exn + gmap string (list date) :=
  match zfs_list w with
  | None => inl CalledProcessError
  | Some stdout => sorted_snapshots_of config stdout
  end.

(** [get_sorted_snapshots]: the listing query, then the parsing. *)
Definition get_sorted_snapshots (config : Config) : M (gmap string (list date)) :=
  fun w => (listing config w, (w, [Listed])).

(** Lines 130-134 and 166-170: the command runs unless [dry_run]; a
    [CalledProcessError] is logged and swallowed. *)
Definition run_unless (dry_run : bool) (cmd : list string) : M unit := fun w =>
  if dry_run then (inr tt, (w, []))
  else
    let '(ok, w') := zfs_run cmd w in
    (inr tt, (w', Exec cmd ok :: (if ok then [] else [Log ERROR CommandFailed]))).

Fixpoint for_each {A} (body : A -> M unit) (l : list A) : M unit :=
  match l with
  | [] => ret tt
  | x :: l' => bind (body x) (fun _ => for_each body l')
  end.

(** The body of the inner loop (lines 152-170). *)
Definition destroy_snapshot (config : Config) (dry_run : bool)
    (dc : ValidatedDatasetEntry) (snapshot : date) : M unit :=
  let delete_snapshot_name := snapshot_name config dc snapshot in
  let cmd := zfs_cmd "destroy" dc delete_snapshot_name in
  bind (log INFO (Destroying delete_snapshot_name)) (fun _ =>
  bind (log DEBUG (RunningCommand cmd)) (fun _ =>
  run_unless dry_run cmd)).

(** Lines 136-170; the [for] loop visits the set in the order of
    [elements]. *)
Definition cleanup (config : Config) (dry_run : bool) (dc : ValidatedDatasetEntry) : M unit :=
  bind (get_sorted_snapshots config) (fun snapshots =>
  let dataset_snapshots := snapshots !!! v_name dc in
  for_each (destroy_snapshot config dry_run dc)
           (elements (delete_set dc dataset_snapshots))).

(** The body of the outer loop (lines 108-170) for one dataset. *)
Definition process_dataset (config : Config) (dry_run : bool) (today : date)
    (dc : ValidatedDatasetEntry) : M unit :=
  if negb (is_due dc today) then log DEBUG (NoSnapshotScheduled (v_name dc))
  else
    let today_snapshot_name := snapshot_name config dc today in
    bind (get_sorted_snapshots config) (fun snapshots =>
    if decide (today ∈ (snapshots !!! v_name dc : list date)) then
      log WARNING (AlreadyExists today_snapshot_name)
    else
      let cmd := zfs_cmd "snapshot" dc today_snapshot_name in
      bind (log INFO (Creating today_snapshot_name)) (fun _ =>
      bind (log DEBUG (RunningCommand cmd)) (fun _ =>
      bind (run_unless dry_run cmd) (fun _ =>
      cleanup config dry_run dc)))).

(** [main]; [zfs_path] is the result of [which("zfs")] and [today] that
    of [datetime.now().date()]. *)
Definition main (config : Config) (dry_run : bool) (zfs_path : option string)
    (today : date) : M Z :=
  match zfs_path with
  | None => bind (log CRITICAL ZfsNotFound) (fun _ => ret 2)
  | Some _ =>
      match get_dataset_configs config with
      | inl exc => bind (log CRITICAL (Raised exc)) (fun _ => ret 3)
      | inr dataset_configs =>
          bind (log DEBUG (ParsedConfigs dataset_configs)) (fun _ =>
          bind (for_each (process_dataset config dry_run today) dataset_configs) (fun _ =>
          ret 0))
      end
  end.

End Scheduler.

(** The commands a trace ran against the storage. *)
Definition commands (t : list event) : list (list string) :=
  omap (fun e => match e with Exec cmd _ => Some cmd | _ => None end) t.

(** The snapshots a trace asked to destroy (also logged in a dry run). *)
Definition destroy_requests (t : list event) : list string :=
  omap (fun e => match e with Log INFO (Destroying n) => Some n | _ => None end) t.

(** ** An in-memory backend

    The storage is the list of snapshot names; the commands named in
    [failing] exit with an error and change nothing. *)
Module Sim.

Record world : Type := mkworld { snapshots : list string; failing : list (list string) }.

Definition render (names : list string) : string :=
  fold_left (fun out n => out +:+ n +:+ "  0B  -  24K  -" +:+ String LF "")
            names ("NAME  USED  AVAIL  REFER  MOUNTPOINT" +:+ String LF "").

Definition run (cmd : list string) (w : world) : bool * world :=
  if decide (cmd ∈ failing w) then (false, w)
  else
    match cmd with
    | [_; verb; n] | [_; verb; _; n] =>
        if decide (verb = "snapshot") then
          (true, mkworld (snapshots w ++ [n])%list (failing w))
        else (true, mkworld (filter (fun x => x ≠ n) (snapshots w)) (failing w))
    | _ => (false, w)
    end.

#[global] Instance backend : Backend world :=
  {| zfs_list w := Some (render (snapshots w)); zfs_run := run |}.

End Sim.

(** ** Sample inputs *)

Definition no_defaults (datasets : list DatasetEntry) (prefix : option string) : Config :=
  mkConfig None None None None None None (Some datasets) prefix None.

(** One dataset, [tank], with [keep_days = 1]. *)
Definition tank_daily : Config :=
  no_defaults [mkEntry (Some "tank") None (Some 1) None None None None] None.

Definition tank_daily_entry : ValidatedDatasetEntry := mkValidated "tank" true 1 0 0 7 1.

(** One dataset with every count left at its default, 0. *)
Definition tank_idle_entry : ValidatedDatasetEntry := mkValidated "tank" true 0 0 0 7 1.

(** The second entry has no name. *)
Definition unnamed_second : Config :=
  no_defaults [mkEntry (Some "tank") None (Some 1) None None None None;
               mkEntry None None (Some 1) None None None None] None.

Definition jan (d : Z) : date := mkdate 2024 1 d.

(** The scenario of three kept days over four snapshots. *)
Definition tank_three_days : ValidatedDatasetEntry := mkValidated "tank" true 3 0 0 7 1.


(** A snapshot dated after today. *)
Definition future_world : Sim.world := Sim.mkworld ["tank@20240111"] [].

Definition two_days_world : Sim.world := Sim.mkworld ["tank@20240108"; "tank@20240109"] [].

(** ** The raw listing as (dataset, identifier) pairs *)

(** Lines 39-40 over all the lines. *)
Fixpoint entries_of (lines : list string) : exn + list (string * string) :=
  match lines with
  | [] => inr []
  | line :: lines' =>
      match line_entry line with
      | inl exc => inl exc
      | inr e =>
          match entries_of lines' with
          | inl exc => inl exc
          | inr es => inr (e :: es)
          end
      end
  end.

(** The pairs [get_sorted_snapshots] reads from the output of the listing
    command. *)
Definition listing_entries (stdout : string) : exn + list (string * string) :=
  if decide (stdout = "no datasets available") then inr []
  else entries_of (tail (splitlines stdout)).

(** The dates of one dataset among the pairs, in listing order; a pair
    whose identifier does not parse gives none. *)
Definition parsed_dates (prefix dataset : string) (entries : list (string * string))
  : list date :=
  omap (fun e => if decide (e.1 = dataset) then strptime_Ymd prefix e.2 else None) entries.

(** Two identifiers of one dataset that name the same day. *)
Definition twice_listed : string :=
  "NAME  USED  AVAIL  REFER  MOUNTPOINT" +:+ String LF ""
  +:+ "tank@20240110  0B  -  24K  -" +:+ String LF ""
  +:+ "tank@2024110  0B  -  24K  -" +:+ String LF ""
  +:+ "tank@manual  0B  -  24K  -" +:+ String LF "".

(** ** The retention policy as the design document words it

    The three tiers of the keep set, each the first [n] elements of a
    sequence, where the count is a natural number. *)
Definition spec_daily (dc : ValidatedDatasetEntry) (sequence : list date) : list date :=
  firstn (Z.to_nat (v_keep_days dc)) sequence.

Definition spec_weekly (dc : ValidatedDatasetEntry) (sequence : list date) : list date :=
  firstn (Z.to_nat (v_keep_weeks dc))
         (List.filter (fun d => isoweekday d =? v_dow dc) sequence).

Definition spec_monthly (dc : ValidatedDatasetEntry) (sequence : list date) : list date :=
  firstn (Z.to_nat (v_keep_months dc))
         (List.filter (fun d => day d =? v_dom dc) sequence).

Definition spec_keep_set (dc : ValidatedDatasetEntry) (sequence : list date) : gset date :=
  list_to_set (spec_daily dc sequence) ∪ list_to_set (spec_weekly dc sequence)
  ∪ list_to_set (spec_monthly dc sequence).

(** The retention counts of a policy are not negative. *)
Definition counts_nonneg (dc : ValidatedDatasetEntry) : Prop :=
  0 <= v_keep_days dc /\ 0 <= v_keep_weeks dc /\ 0 <= v_keep_months dc.

(** ** Notions used to state further properties *)

(** The catalog sequence left once every date of the deletion set is
    gone. *)
Definition survivors (dc : ValidatedDatasetEntry) (l : list date) : list date :=
  filter (fun d => d ∈ keep_set dc l) l.

(** Two entries with the same anchors, the counts of the first at most
    those of the second. *)
Definition keeps_no_more (dc dc' : ValidatedDatasetEntry) : Prop :=
  v_dow dc = v_dow dc' /\ v_dom dc = v_dom dc'
  /\ v_keep_days dc <= v_keep_days dc'
  /\ v_keep_weeks dc <= v_keep_weeks dc'
  /\ v_keep_months dc <= v_keep_months dc'.

(** The value a validated field takes: the dataset's own setting, else the
    global one, else the built-in default. *)
Definition resolved {A} (own global : option A) (dflt v : A) : Prop :=
  match own, global with
  | Some x, _ => v = x
  | None, Some y => v = y
  | None, None => v = dflt
  end.

(** A configuration with a global weekly count and two datasets, the
    second with counts of its own. *)
Definition mixed_config : Config :=
  mkConfig None (Some 1) None (Some 4) None (Some false)
    (Some [mkEntry (Some "tank") None None None None None None;
           mkEntry (Some "pool/home") (Some true) (Some 7) (Some 2) None (Some 5) None])
    (Some "auto-") None.

(** Two datasets that set no count, under globals that set none. *)
Definition idle_config : Config :=
  no_defaults [mkEntry (Some "tank") None None None None None None;
               mkEntry (Some "pool/home") (Some false) None None None (Some 3) (Some 15)]
              (Some "auto-").

(** Every character of a string passes a test. *)
Fixpoint all_chars (p : ascii -> bool) (s : string) : bool :=
  match s with
  | EmptyString => true
  | String c s' => p c && all_chars p s'
  end.

(** A character that is neither white space nor the at-sign; a name made
    of such characters is one field of a listing line and one side of the
    at-sign. *)
Definition plain_char (c : ascii) : bool :=
  negb (is_space c) && negb (bool_decide (c = "@"%char)).

Definition plain (s : string) : bool := all_chars plain_char s.

(** The month and day part of [strftime_Ymd]. *)
Definition md_string (m d : Z) : string :=
  String (digit_char (m / 10)) (String (digit_char m)
  (String (digit_char (d / 10)) (String (digit_char d) ""))).

(** A string without a given character. *)
Definition no_char (sep : ascii) (s : string) : bool :=
  all_chars (fun c => negb (bool_decide (c = sep))) s.

Definition no_space (s : string) : bool := all_chars (fun c => negb (is_space c)) s.

(** The configured prefix holds no percent sign, so that [strptime]
    reads it as literal text and not as a directive. *)
Definition literal_prefix (config : Config) : Prop :=
  no_char "%" (get (c_snapshot_prefix config) "") = true.

(** Two past snapshots and one dated after the 10th. *)
Definition later_date_world : Sim.world :=
  Sim.mkworld ["tank@20240108"; "tank@20240109"; "tank@20240111"] [].

(** A listing in which one row is a filesystem, not a snapshot. *)
Definition filesystem_row_world : Sim.world := Sim.mkworld ["tank@20240109"; "tank"] [].

(** One dataset kept weekly on Sundays (the default anchor). *)
Definition weekly_config : Config :=
  no_defaults [mkEntry (Some "tank") None None (Some 4) None None None] None.

Definition weekly_entry : ValidatedDatasetEntry := mkValidated "tank" true 0 4 0 7 1.

Definition today_listed_world : Sim.world :=
  Sim.mkworld ["tank@20240109"; "tank@20240110"] [].

(** ** The command line entry point ([cli])

    The arguments are taken as parsed by [argparse] and the configuration
    as loaded by [toml.load]. *)

Record Args : Type := mkArgs { a_dry_run : bool; a_logging : option string }.

Definition log_levels : list string := ["DEBUG"; "INFO"; "WARNING"; "ERROR"; "CRITICAL"].

(** [getattr(logging, name)]; [cli] only looks up a name of
    [log_levels], the last of which is [CRITICAL]. *)
Definition level_named (name : string) : level :=
  if decide (name = "DEBUG") then DEBUG
  else if decide (name = "INFO") then INFO
  else if decide (name = "WARNING") then WARNING
  else if decide (name = "ERROR") then ERROR
  else CRITICAL.

(** [x or y]: [y] when [x] is [None] or the empty string. *)
Definition or_else (x : option string) (y : string) : string :=
  match x with
  | Some s => if decide (s = "") then y else s
  | None => y
  end.

(** Line 193. *)
Definition resolved_log_level (args : Args) (config : Config) : string :=
  or_else (a_logging args) (get (c_logging config) "INFO").

(** What [cli] does besides running [main]: the threshold handed to
    [logging.basicConfig], the rejection of the level, the traceback of an
    uncaught exception. *)
Inductive cli_event : Type :=
  | BasicConfig (lvl : level)
  | LevelRejected (log_level : string)
  | FromMain (e : event)
  | Traceback (exc : exn).

Section CommandLine.
Context {World : Type} `{Backend World}.

(** [cli]: the exit status of the process, the storage and the events.
    An exception that escapes [main] ends the interpreter with status 1. *)
Definition cli (args : Args) (config : Config) (zfs_path : option string) (today : date)
    (w : World) : Z * (World * list cli_event) :=
  let log_level := resolved_log_level args config in
  if decide (log_level ∈ log_levels) then
    let lvl := level_named log_level in
    match main config (a_dry_run args) zfs_path today w with
    | (inr status, (w', t)) => (status, (w', BasicConfig lvl :: map FromMain t))
    | (inl exc, (w', t)) =>
        (1, (w', BasicConfig lvl :: (map FromMain t ++ [Traceback exc])%list))
    end
  else (1, (w, [BasicConfig CRITICAL; LevelRejected log_level])).

End CommandLine.

(** A configuration file with a level that is no level name. *)
Definition verbose_config : Config :=
  mkConfig None None None None None None
    (Some [mkEntry (Some "tank") None (Some 1) None None None None]) None (Some "verbose").

(** * Properties *)

(** ** Slices *)

Lemma slice_to_nonneg {A} (l : list A) (k : Z) :
  0 <= k -> slice_to l k = firstn (Z.to_nat k) l.
Proof.
  intros Hk. unfold slice_to.
  destruct (Z.leb_spec 0 k); [reflexivity | lia].
Qed.

Lemma slice_to_subseteq {A} (l : list A) (k : Z) : slice_to l k ⊆ l.
Proof. unfold slice_to. destruct (0 <=? k); apply subseteq_take. Qed.

Lemma slice_to_length {A} (l : list A) (k : Z) :
  0 <= k -> (Z.of_nat (length (slice_to l k)) <= k)%Z.
Proof.
  intros Hk. rewrite slice_to_nonneg by done. rewrite length_take. lia.
Qed.

Lemma filter_bool_eq {A} (P : A -> Prop) `{!∀ x, Decision (P x)} (f : A -> bool) (l : list A) :
  (∀ x, f x = true <-> P x) -> List.filter f l = filter P l.
Proof.
  intros Hf. induction l as [|x l IH]; [done|]. simpl.
  rewrite filter_cons. destruct (f x) eqn:E.
  - rewrite decide_True by (by apply Hf). by rewrite IH.
  - rewrite decide_False; [done|]. intros HP. apply Hf in HP. congruence.
Qed.

Lemma size_list_to_set_le (l : list date) :
  (size (list_to_set l : gset date) <= length l)%nat.
Proof.
  induction l as [|x l IH]; [by rewrite list_to_set_nil, size_empty|].
  rewrite list_to_set_cons, size_union_alt, size_singleton. simpl.
  assert (size (list_to_set l ∖ {[x]} : gset date) <= size (list_to_set l : gset date))%nat
    by (apply subseteq_size, subseteq_difference_l; reflexivity).
  lia.
Qed.

Lemma size_union_le (X Y : gset date) : (size (X ∪ Y) <= size X + size Y)%nat.
Proof.
  rewrite size_union_alt.
  assert (size (Y ∖ X) <= size Y)%nat
    by (apply subseteq_size, subseteq_difference_l; reflexivity).
  lia.
Qed.

Lemma keep_set_subseteq (dc : ValidatedDatasetEntry) (l : list date) :
  keep_set dc l ⊆ list_to_set l.
Proof.
  unfold keep_set, keep_daily_set, keep_weekly_set, keep_monthly_set.
  intros d. rewrite !elem_of_union, !elem_of_list_to_set.
  intros [[Hd|Hd]|Hd]; apply slice_to_subseteq in Hd; auto;
    apply list_elem_of_filter in Hd; tauto.
Qed.

(** ** The keep set *)

(** C2: for a policy with non-negative counts, the keep set computed by
    [main] is the union of the three slices of the design (the first
    [keepDays] dates of the sequence, the first [keepWeeks] of the dates on
    the weekday anchor, the first [keepMonths] of the dates on the
    day-of-month anchor), each taken from the whole sequence; a tier with
    count 0 adds nothing, and a tier whose count is at least the number of
    matching dates keeps them all. *)
Theorem keep_set_is_union_of_tiers (dc : ValidatedDatasetEntry) (l : list date) :
  counts_nonneg dc ->
  keep_set dc l = spec_keep_set dc l
  /\ (v_keep_days dc = 0 -> keep_daily_set dc l = ∅)
  /\ (v_keep_weeks dc = 0 -> keep_weekly_set dc l = ∅)
  /\ (v_keep_months dc = 0 -> keep_monthly_set dc l = ∅)
  /\ (Z.of_nat (length l) <= v_keep_days dc -> keep_daily_set dc l = list_to_set l)
  /\ (Z.of_nat (length (filter (fun d => isoweekday d = v_dow dc) l)) <= v_keep_weeks dc ->
      keep_weekly_set dc l = list_to_set (filter (fun d => isoweekday d = v_dow dc) l))
  /\ (Z.of_nat (length (filter (fun d => day d = v_dom dc) l)) <= v_keep_months dc ->
      keep_monthly_set dc l = list_to_set (filter (fun d => day d = v_dom dc) l)).
Proof.
  intros (Hd & Hw & Hm).
  unfold keep_set, spec_keep_set, keep_daily_set, keep_weekly_set, keep_monthly_set,
    spec_daily, spec_weekly, spec_monthly.
  rewrite !slice_to_nonneg by done.
  rewrite (filter_bool_eq (fun d => isoweekday d = v_dow dc) (fun d => isoweekday d =? v_dow dc))
    by (intros; apply Z.eqb_eq).
  rewrite (filter_bool_eq (fun d => day d = v_dom dc) (fun d => day d =? v_dom dc))
    by (intros; apply Z.eqb_eq).
  split; [reflexivity|].
  repeat split; intros E; try (rewrite E; simpl; reflexivity);
    rewrite firstn_all2 by lia; reflexivity.
Qed.

(** C5: for a policy with non-negative counts the keep set has at most
    [keepDays + keepWeeks + keepMonths] dates, and each of them is a date
    of the catalog sequence. *)
Theorem keep_set_bounded (dc : ValidatedDatasetEntry) (l : list date) :
  counts_nonneg dc ->
  Z.of_nat (size (keep_set dc l)) <= v_keep_days dc + v_keep_weeks dc + v_keep_months dc
  /\ (∀ d, d ∈ keep_set dc l -> d ∈ l).
Proof.
  intros (Hd & Hw & Hm). split.
  - unfold keep_set.
    pose proof (size_union_le (keep_daily_set dc l ∪ keep_weekly_set dc l)
                  (keep_monthly_set dc l)) as H1.
    pose proof (size_union_le (keep_daily_set dc l) (keep_weekly_set dc l)) as H2.
    pose proof (size_list_to_set_le (slice_to l (v_keep_days dc))) as Hsd.
    pose proof (size_list_to_set_le
      (slice_to (filter (fun s => isoweekday s = v_dow dc) l) (v_keep_weeks dc))) as Hsw.
    pose proof (size_list_to_set_le
      (slice_to (filter (fun s => day s = v_dom dc) l) (v_keep_months dc))) as Hsm.
    pose proof (slice_to_length l _ Hd).
    pose proof (slice_to_length (filter (fun s => isoweekday s = v_dow dc) l) _ Hw).
    pose proof (slice_to_length (filter (fun s => day s = v_dom dc) l) _ Hm).
    unfold keep_daily_set, keep_weekly_set, keep_monthly_set in *. lia.
  - intros d Hin. apply keep_set_subseteq in Hin. by apply elem_of_list_to_set in Hin.
Qed.

(** C4: the deletion set is the set of the dates of the sequence minus
    the keep set: the two are disjoint, together they are the set of all
    dates of the sequence, and the dates the pruning loop visits (in the
    order of the set's enumeration, each once) are those of the sequence
    that are not kept. *)
Theorem delete_set_complement (dc : ValidatedDatasetEntry) (l : list date) :
  delete_set dc l ## keep_set dc l
  /\ delete_set dc l ∪ keep_set dc l = list_to_set l
  /\ NoDup (elements (delete_set dc l))
  /\ (∀ d, d ∈ elements (delete_set dc l) <-> d ∈ l /\ d ∉ keep_set dc l).
Proof.
  pose proof (keep_set_subseteq dc l) as Hsub.
  unfold delete_set. split; [|split; [|split]].
  - intros d Hd Hk. apply elem_of_difference in Hd. tauto.
  - apply set_eq. intros d. rewrite elem_of_union, elem_of_difference.
    specialize (Hsub d). destruct (decide (d ∈ keep_set dc l)); tauto.
  - apply NoDup_elements.
  - intros d. rewrite elem_of_elements, elem_of_difference, elem_of_list_to_set. tauto.
Qed.

(** ** The catalog *)

Global Instance date_ge_total : Total date_ge.
Proof. intros [y1 m1 d1] [y2 m2 d2]. unfold date_ge. simpl. lia. Qed.

Global Instance date_ge_trans : Transitive date_ge.
Proof. intros [y1 m1 d1] [y2 m2 d2] [y3 m3 d3]. unfold date_ge. simpl. lia. Qed.

Global Instance date_ge_antisymm : AntiSymm (=) date_ge.
Proof.
  intros [y1 m1 d1] [y2 m2 d2]. unfold date_ge. simpl. intros H1 H2.
  f_equal; lia.
Qed.

Lemma scan_lines_entries (prefix : string) (lines : list string)
    (acc : gmap string (list date)) :
  scan_lines prefix lines acc
  = match entries_of lines with
    | inl exc => inl exc
    | inr es => inr (fold_left (add_entry prefix) es acc)
    end.
Proof.
  revert acc. induction lines as [|line lines IH]; intros acc; [reflexivity|].
  simpl. destruct (line_entry line) as [exc|e]; [reflexivity|].
  rewrite IH. destruct (entries_of lines); reflexivity.
Qed.

Lemma add_entry_lookup (prefix : string) (acc : gmap string (list date))
    (e : string * string) (dataset : string) :
  (add_entry prefix acc e !!! dataset : list date)
  = ((acc !!! dataset) ++ parsed_dates prefix dataset [e])%list.
Proof.
  unfold add_entry, parsed_dates. simpl.
  destruct (strptime_Ymd prefix e.2) as [d|] eqn:E.
  - destruct (decide (e.1 = dataset)) as [->|Hne].
    + by rewrite lookup_total_insert_eq.
    + rewrite lookup_total_insert_ne by done. by rewrite app_nil_r.
  - destruct (decide (e.1 = dataset)); by rewrite app_nil_r.
Qed.

Lemma fold_add_entry_lookup (prefix : string) (es : list (string * string))
    (acc : gmap string (list date)) (dataset : string) :
  (fold_left (add_entry prefix) es acc !!! dataset : list date)
  = ((acc !!! dataset) ++ parsed_dates prefix dataset es)%list.
Proof.
  revert acc. induction es as [|e es IH]; intros acc; simpl.
  - by rewrite app_nil_r.
  - rewrite IH, add_entry_lookup. rewrite <- app_assoc. f_equal.
    unfold parsed_dates. simpl. destruct (decide (e.1 = dataset)); [|done].
    destruct (strptime_Ymd prefix e.2); done.
Qed.

Lemma sort_reverse_lookup (m : gmap string (list date)) (dataset : string) :
  ((sort_reverse <$> m) !!! dataset : list date) = sort_reverse (m !!! dataset).
Proof.
  rewrite !lookup_total_alt, lookup_fmap. destruct (m !! dataset); reflexivity.
Qed.

(** What the catalog holds for one dataset, given the pairs of the
    listing. *)
Lemma sorted_snapshots_of_lookup (config : Config) (stdout : string)
    (entries : list (string * string)) :
  listing_entries stdout = inr entries ->
  exists snapshots,
    sorted_snapshots_of config stdout = inr snapshots
    /\ forall dataset,
         snapshots !!! dataset
         = sort_reverse (parsed_dates (get (c_snapshot_prefix config) "") dataset entries).
Proof.
  unfold listing_entries, sorted_snapshots_of.
  destruct (decide (stdout = "no datasets available")) as [_|_].
  - intros [= <-]. exists ∅. split; [done|]. intros dataset.
    by rewrite lookup_total_empty.
  - intros Hes. rewrite scan_lines_entries, Hes. eexists. split; [done|].
    intros dataset. rewrite sort_reverse_lookup, fold_add_entry_lookup.
    by rewrite lookup_total_empty.
Qed.

(** A line that gives no pair makes the whole catalog query raise. *)
Lemma sorted_snapshots_of_raises (config : Config) (stdout : string) (exc : exn) :
  listing_entries stdout = inl exc -> sorted_snapshots_of config stdout = inl exc.
Proof.
  unfold listing_entries, sorted_snapshots_of.
  destruct (decide (stdout = "no datasets available")) as [_|_]; [discriminate|].
  intros Hes. by rewrite scan_lines_entries, Hes.
Qed.

Lemma sorted_snapshots_of_sorted (config : Config) (stdout : string)
    (snapshots : gmap string (list date)) (dataset : string) :
  sorted_snapshots_of config stdout = inr snapshots ->
  Sorted date_ge (snapshots !!! dataset).
Proof.
  unfold sorted_snapshots_of.
  destruct (decide (stdout = "no datasets available")) as [_|_].
  - intros [= <-]. rewrite lookup_total_empty. constructor.
  - destruct (scan_lines _ _ _) as [exc|ret_val]; [discriminate|].
    intros [= <-]. rewrite sort_reverse_lookup. apply Sorted_merge_sort, _.
Qed.

Lemma date_ge_refl (d : date) : date_ge d d.
Proof. destruct d. unfold date_ge. simpl. lia. Qed.

(** C6 (as the code has it): for a configured prefix without a percent
    sign, whenever the listing splits into (dataset, identifier) pairs,
    the catalog is returned without error and holds, for each dataset, the
    dates parsed from that dataset's identifiers, in descending order and
    each as many times as it was parsed (nothing removes duplicates);
    identifiers that do not parse as prefix plus date are left out; a
    dataset with no parsed date reads as the empty sequence. *)
Theorem catalog_sorted_not_deduplicated (config : Config) (stdout : string)
    (entries : list (string * string)) :
  literal_prefix config ->
  listing_entries stdout = inr entries ->
  exists snapshots,
    sorted_snapshots_of config stdout = inr snapshots
    /\ forall dataset,
         Sorted date_ge (snapshots !!! dataset)
         /\ snapshots !!! dataset
            ≡ₚ parsed_dates (get (c_snapshot_prefix config) "") dataset entries
         /\ (parsed_dates (get (c_snapshot_prefix config) "") dataset entries = [] ->
             snapshots !!! dataset = []).
Proof.
  intros _ Hes.
  destruct (sorted_snapshots_of_lookup config stdout entries Hes) as (snapshots & Hrun & Hl).
  exists snapshots. split; [done|]. intros dataset. rewrite Hl. split; [|split].
  - apply Sorted_merge_sort, _.
  - apply merge_sort_Permutation.
  - intros ->. reflexivity.
Qed.

Lemma catalog_sorted_witness :
  exists snapshots,
    sorted_snapshots_of tank_daily twice_listed = inr snapshots
    /\ forall dataset,
         Sorted date_ge (snapshots !!! dataset)
         /\ snapshots !!! dataset
            ≡ₚ parsed_dates "" dataset
                 [("tank", "20240110"); ("tank", "2024110"); ("tank", "manual")]
         /\ (parsed_dates "" dataset
               [("tank", "20240110"); ("tank", "2024110"); ("tank", "manual")] = [] ->
             snapshots !!! dataset = []).
Proof.
  apply (catalog_sorted_not_deduplicated tank_daily twice_listed
           [("tank", "20240110"); ("tank", "2024110"); ("tank", "manual")]).
  - reflexivity.
  - vm_compute. reflexivity.
Defined.

(** C6 fails as stated: the identifiers [20240110] and [2024110] both
    parse as the 10th of January 2024, and the catalog of [tank] then
    holds that date twice. *)
Lemma catalog_keeps_duplicates :
  sorted_snapshots_of tank_daily twice_listed = inr {[ "tank" := [jan 10; jan 10] ]}
  /\ ~ NoDup (({[ "tank" := [jan 10; jan 10] ]} : gmap string (list date)) !!! "tank").
Proof.
  split; [vm_compute; reflexivity|].
  intros Hnd. vm_compute in Hnd. apply NoDup_cons in Hnd as [Hnotin _].
  apply Hnotin. apply list_elem_of_In. simpl. tauto.
Qed.

(** ** The scheduler *)

Section SchedulerFacts.
Context {World : Type} `{Backend World}.

Lemma is_due_iff (dc : ValidatedDatasetEntry) (today : date) :
  is_due dc today = true <->
  v_keep_days dc > 0
  \/ (v_keep_weeks dc > 0 /\ isoweekday today = v_dow dc)
  \/ (v_keep_months dc > 0 /\ day today = v_dom dc).
Proof.
  unfold is_due.
  rewrite !orb_true_iff, !andb_true_iff, !bool_decide_eq_true. tauto.
Qed.

Lemma get_dataset_configs_from_unnamed (config : Config) (ds : list DatasetEntry) :
  (exists d, d ∈ ds /\ de_name d = None) ->
  forall i0, exists i d,
    ds !! i = Some d /\ de_name d = None
    /\ (forall j d', (j < i)%nat -> ds !! j = Some d' -> de_name d' <> None)
    /\ get_dataset_configs_from config i0 ds = inl (RuntimeError (i0 + i)).
Proof.
  induction ds as [|e ds IH]; intros (d & Hin & Hd) i0.
  - by apply elem_of_nil in Hin.
  - destruct (de_name e) as [n|] eqn:En.
    + assert (exists d, d ∈ ds /\ de_name d = None) as Hex.
      { apply elem_of_cons in Hin as [->|Hin]; [congruence | eauto]. }
      destruct (IH Hex (S i0)) as (i & d' & Hl & Hn & Hfirst & Hrun).
      exists (S i), d'. repeat split; [done | done | |].
      * intros [|j] d'' Hj Hlj; simpl in Hlj.
        -- injection Hlj as <-. congruence.
        -- apply (Hfirst j); [lia | done].
      * simpl. rewrite En, Hrun. f_equal. f_equal. lia.
    + exists 0%nat, e. repeat split; [done | |].
      * intros j d' Hj. lia.
      * simpl. rewrite En. f_equal. f_equal. lia.
Qed.

(** C3: the dataset is due exactly when the daily tier is enabled, or the
    weekly tier is enabled and today is on its weekday, or the monthly tier
    is enabled and today is on its day of the month.  When it is not due
    the loop body only logs: no listing, no create, no destroy, and the
    storage is left as it was.  A policy whose three counts are 0 is never
    due. *)
Theorem not_due_no_action (config : Config) (dry_run : bool) (today : date)
    (dc : ValidatedDatasetEntry) (w : World) :
  (is_due dc today = true <->
     v_keep_days dc > 0
     \/ (v_keep_weeks dc > 0 /\ isoweekday today = v_dow dc)
     \/ (v_keep_months dc > 0 /\ day today = v_dom dc))
  /\ (is_due dc today = false ->
      process_dataset config dry_run today dc w
      = (inr tt, (w, [Log DEBUG (NoSnapshotScheduled (v_name dc))])))
  /\ (v_keep_days dc = 0 -> v_keep_weeks dc = 0 -> v_keep_months dc = 0 ->
      is_due dc today = false).
Proof.
  split; [apply is_due_iff|]. split.
  - intros Hnd. unfold process_dataset. rewrite Hnd. reflexivity.
  - intros Hd Hw Hm. unfold is_due. rewrite Hd, Hw, Hm. reflexivity.
Qed.

(** C7: when [zfs] is not found the run logs it and returns 2 with the
    storage untouched and nothing else done.  When it is found and some
    dataset entry has no name, the run logs the [RuntimeError] carrying the
    index of the first such entry and returns 3, again before any dataset is
    listed, snapshotted or pruned.  The two statuses differ from each other
    and from the success status 0. *)
Theorem fatal_errors_abort (config : Config) (dry_run : bool) (today : date) (w : World) :
  main config dry_run None today w = (inr 2, (w, [Log CRITICAL ZfsNotFound]))
  /\ (forall zfs_path ds,
        c_datasets config = Some ds ->
        (exists d, d ∈ ds /\ de_name d = None) ->
        exists i d,
          ds !! i = Some d /\ de_name d = None
          /\ (forall j d', (j < i)%nat -> ds !! j = Some d' -> de_name d' <> None)
          /\ main config dry_run (Some zfs_path) today w
             = (inr 3, (w, [Log CRITICAL (Raised (RuntimeError i))])))
  /\ 2 <> 3 /\ 2 <> 0 /\ 3 <> 0.
Proof.
  split; [reflexivity|]. split; [|lia].
  intros zfs_path ds Hds Hex.
  destruct (get_dataset_configs_from_unnamed config ds Hex 0) as (i & d & Hl & Hn & Hfirst & Hrun).
  exists i, d. repeat split; try done.
  unfold main, get_dataset_configs, get. rewrite Hds, Hrun. reflexivity.
Qed.

(** C1 (as the code has it): when the dataset is due and today's date is
    already in its catalog, the loop body lists the snapshots once, logs
    the already-exists warning and goes on to the next dataset: no create
    and no pruning pass (no second listing, no destroy), storage
    unchanged. *)
Theorem already_exists_skips_create_and_pruning (config : Config) (dry_run : bool)
    (today : date) (dc : ValidatedDatasetEntry) (w : World)
    (snapshots : gmap string (list date)) :
  is_due dc today = true ->
  listing config w = inr snapshots ->
  today ∈ snapshots !!! v_name dc ->
  process_dataset config dry_run today dc w
  = (inr tt, (w, [Listed; Log WARNING (AlreadyExists (snapshot_name config dc today))])).
Proof.
  intros Hdue Hlist Hin. unfold process_dataset. rewrite Hdue. cbn [negb].
  unfold bind at 1. unfold get_sorted_snapshots. rewrite Hlist.
  rewrite decide_True by done. reflexivity.
Qed.

Lemma destroy_requests_cons (e : event) (t : list event) :
  destroy_requests (e :: t)
  = match e with
    | Log INFO (Destroying n) => n :: destroy_requests t
    | _ => destroy_requests t
    end.
Proof. destruct e as [[] []| |]; reflexivity. Qed.

Lemma commands_cons (e : event) (t : list event) :
  commands (e :: t)
  = match e with Exec cmd _ => cmd :: commands t | _ => commands t end.
Proof. destruct e; reflexivity. Qed.

Lemma destroy_requests_app (t1 t2 : list event) :
  destroy_requests (t1 ++ t2) = (destroy_requests t1 ++ destroy_requests t2)%list.
Proof. apply omap_app. Qed.

Lemma commands_app (t1 t2 : list event) :
  commands (t1 ++ t2) = (commands t1 ++ commands t2)%list.
Proof. apply omap_app. Qed.

Lemma run_unless_returns (dry_run : bool) (cmd : list string) (w : World) :
  exists w1 t1,
    run_unless dry_run cmd w = (inr tt, (w1, t1))
    /\ destroy_requests t1 = []
    /\ commands t1 = (if dry_run then [] else [cmd])
    /\ (dry_run = false -> w1 = (zfs_run cmd w).2).
Proof.
  unfold run_unless. destruct dry_run.
  - exists w, []. repeat split; [done..|discriminate].
  - destruct (zfs_run cmd w) as [ok w1]. eexists _, _. split; [reflexivity|].
    destruct ok; done.
Qed.

Lemma destroy_snapshot_returns (config : Config) (dry_run : bool)
    (dc : ValidatedDatasetEntry) (d : date) (w : World) :
  exists w1 t1,
    destroy_snapshot config dry_run dc d w = (inr tt, (w1, t1))
    /\ destroy_requests t1 = [snapshot_name config dc d]
    /\ commands t1
       = (if dry_run then [] else [zfs_cmd "destroy" dc (snapshot_name config dc d)]).
Proof.
  unfold destroy_snapshot, bind, log.
  destruct (run_unless_returns dry_run
              (zfs_cmd "destroy" dc (snapshot_name config dc d)) w)
    as (w1 & t1 & Hrun & Hreq & Hcmd & _).
  rewrite Hrun. eexists _, _. split; [reflexivity|].
  cbn [app]. rewrite !destroy_requests_cons, !commands_cons, Hreq, Hcmd. done.
Qed.

(** The inner loop visits every date, whatever the commands return. *)
Lemma for_each_destroy (config : Config) (dry_run : bool) (dc : ValidatedDatasetEntry)
    (ds : list date) (w : World) :
  exists w1 t1,
    for_each (destroy_snapshot config dry_run dc) ds w = (inr tt, (w1, t1))
    /\ destroy_requests t1 = map (snapshot_name config dc) ds
    /\ commands t1
       = (if dry_run then []
          else map (fun d => zfs_cmd "destroy" dc (snapshot_name config dc d)) ds).
Proof.
  revert w. induction ds as [|d ds IH]; intros w.
  - exists w, []. by destruct dry_run.
  - destruct (destroy_snapshot_returns config dry_run dc d w) as (w1 & t1 & Hd & Hr1 & Hc1).
    destruct (IH w1) as (w2 & t2 & Hrest & Hr2 & Hc2).
    exists w2, (t1 ++ t2)%list. cbn [for_each]. unfold bind at 1. rewrite Hd, Hrest.
    split; [reflexivity|].
    rewrite destroy_requests_app, commands_app, Hr1, Hr2, Hc1, Hc2. by destruct dry_run.
Qed.

Lemma cleanup_returns (config : Config) (dry_run : bool) (dc : ValidatedDatasetEntry)
    (w : World) (snapshots : gmap string (list date)) :
  listing config w = inr snapshots ->
  exists w1 t1,
    cleanup config dry_run dc w = (inr tt, (w1, Listed :: t1))
    /\ destroy_requests (Listed :: t1)
       = map (snapshot_name config dc) (elements (delete_set dc (snapshots !!! v_name dc)))
    /\ commands (Listed :: t1)
       = (if dry_run then []
          else map (fun d => zfs_cmd "destroy" dc (snapshot_name config dc d))
                   (elements (delete_set dc (snapshots !!! v_name dc)))).
Proof.
  intros Hl. unfold cleanup, bind, get_sorted_snapshots. rewrite Hl.
  destruct (for_each_destroy config dry_run dc
              (elements (delete_set dc (snapshots !!! v_name dc))) w)
    as (w1 & t1 & Hrun & Hreq & Hcmd).
  rewrite Hrun. exists w1, t1. done.
Qed.

Lemma cleanup_raises (config : Config) (dry_run : bool) (dc : ValidatedDatasetEntry)
    (w : World) (exc : exn) :
  listing config w = inl exc ->
  cleanup config dry_run dc w = (inl exc, (w, [Listed])).
Proof.
  intros Hl. unfold cleanup, bind, get_sorted_snapshots. by rewrite Hl.
Qed.

(** The loop body when the dataset is due and today's snapshot is not
    there yet: the create is attempted, then the cleanup runs from the
    storage the attempt left. *)
Lemma process_dataset_fresh (config : Config) (dry_run : bool) (today : date)
    (dc : ValidatedDatasetEntry) (w : World) (snapshots : gmap string (list date)) :
  is_due dc today = true ->
  listing config w = inr snapshots ->
  today ∉ snapshots !!! v_name dc ->
  exists w1 t1,
    run_unless dry_run (zfs_cmd "snapshot" dc (snapshot_name config dc today)) w
    = (inr tt, (w1, t1))
    /\ process_dataset config dry_run today dc w
       = (let '(r, (w2, t2)) := cleanup config dry_run dc w1 in
          (r, (w2, Listed :: Log INFO (Creating (snapshot_name config dc today))
                   :: Log DEBUG (RunningCommand
                                   (zfs_cmd "snapshot" dc (snapshot_name config dc today)))
                   :: t1 ++ t2)))%list.
Proof.
  intros Hdue Hl Hnin.
  destruct (run_unless_returns dry_run
              (zfs_cmd "snapshot" dc (snapshot_name config dc today)) w)
    as (w1 & t1 & Hrun & _).
  exists w1, t1. split; [done|].
  unfold process_dataset. rewrite Hdue. cbn [negb].
  unfold bind at 1. unfold get_sorted_snapshots. rewrite Hl.
  rewrite decide_False by done.
  unfold bind, log. rewrite Hrun.
  destruct (cleanup config dry_run dc w1) as [r [w2 t2]]. reflexivity.
Qed.

(** The loop body ends normally unless a listing query raised; the
    exception is then the one of the listing of the storage it ends in. *)
Lemma process_dataset_outcome (config : Config) (dry_run : bool) (today : date)
    (dc : ValidatedDatasetEntry) (w : World) :
  exists r w1 t,
    process_dataset config dry_run today dc w = (r, (w1, t))
    /\ (r = inr tt
        \/ exists exc, r = inl exc /\ listing config w1 = inl exc /\ last t = Some Listed).
Proof.
  destruct (is_due dc today) eqn:Hdue.
  2:{ eexists _, _, _. split; [unfold process_dataset; rewrite Hdue; reflexivity|]. by left. }
  destruct (listing config w) as [exc|snapshots] eqn:Hl.
  { eexists _, _, _. split.
    - unfold process_dataset. rewrite Hdue. cbn [negb]. unfold bind, get_sorted_snapshots.
      rewrite Hl. reflexivity.
    - right. by exists exc. }
  destruct (decide (today ∈ snapshots !!! v_name dc)) as [Hin|Hnin].
  { eexists _, _, _. split; [|by left].
    unfold process_dataset. rewrite Hdue. cbn [negb].
    unfold bind at 1. unfold get_sorted_snapshots. rewrite Hl.
    rewrite decide_True by done. reflexivity. }
  destruct (process_dataset_fresh config dry_run today dc w snapshots Hdue Hl Hnin)
    as (w1 & t1 & Hrun & Hpd).
  rewrite Hpd.
  destruct (listing config w1) as [exc|snapshots1] eqn:Hl1.
  - rewrite (cleanup_raises _ _ _ _ _ Hl1). eexists _, _, _. split; [reflexivity|].
    right. exists exc. split; [done|]. split; [done|].
    rewrite !app_comm_cons. by rewrite last_snoc.
  - destruct (cleanup_returns config dry_run dc w1 snapshots1 Hl1) as (w2 & t2 & Hc & _).
    rewrite Hc. eexists _, _, _. split; [reflexivity|]. by left.
Qed.

(** The outer loop: either every dataset was processed to the end, or a
    listing query raised. *)
Lemma for_each_process (config : Config) (dry_run : bool) (today : date)
    (dcs : list ValidatedDatasetEntry) (w : World) :
  exists r w1 t,
    for_each (process_dataset config dry_run today) dcs w = (r, (w1, t))
    /\ ((r = inr tt
         /\ exists ts, t = concat ts
            /\ Forall2 (fun dc ti => exists wi wi',
                          process_dataset config dry_run today dc wi = (inr tt, (wi', ti)))
                       dcs ts)
        \/ exists exc, r = inl exc /\ listing config w1 = inl exc /\ last t = Some Listed).
Proof.
  revert w. induction dcs as [|dc dcs IH]; intros w.
  - exists (inr tt), w, []. split; [reflexivity|]. left. split; [done|].
    exists []. split; [done | constructor].
  - destruct (process_dataset_outcome config dry_run today dc w)
      as (r & w1 & t1 & Hpd & [->|(exc & -> & Hexc & Hlast)]).
    + destruct (IH w1) as (r2 & w2 & t2 & Hrest & Hcases).
      exists r2, w2, (t1 ++ t2)%list. cbn [for_each]. unfold bind at 1.
      rewrite Hpd, Hrest. split; [reflexivity|].
      destruct Hcases as [(-> & ts & -> & Hall)|(exc & -> & Hexc & Hlast)].
      * left. split; [done|]. exists (t1 :: ts). split; [done|].
        constructor; [by exists w, w1 | done].
      * right. exists exc. split; [done|]. split; [done|].
        destruct t2 as [|e t2]; [discriminate|]. by rewrite last_app_cons.
    + exists (inl exc), w1, t1. cbn [for_each]. unfold bind at 1. rewrite Hpd.
      split; [reflexivity|]. right. by exists exc.
Qed.


(** A sorted sequence none of whose dates is after [today] and that
    holds [today] starts with it. *)
Lemma latest_is_head (today : date) (l : list date) :
  Sorted date_ge l -> today ∈ l -> (forall d, d ∈ l -> date_ge today d) ->
  exists l', l = today :: l'.
Proof.
  intros Hs Hin Hmax. destruct l as [|h l']; [by apply elem_of_nil in Hin|].
  exists l'. f_equal.
  apply (anti_symm date_ge).
  - apply Sorted_StronglySorted in Hs; [|apply _].
    apply StronglySorted_inv in Hs as [_ Hall].
    apply elem_of_cons in Hin as [->|Hin]; [apply date_ge_refl|].
    rewrite Forall_forall in Hall. by apply Hall.
  - apply Hmax. by left.
Qed.

Lemma head_in_slice_to {A} (x : A) (l : list A) (k : Z) : k > 0 -> x ∈ slice_to (x :: l) k.
Proof.
  intros Hk. rewrite slice_to_nonneg by lia.
  destruct (Z.to_nat k) as [|n] eqn:E; [lia|]. simpl. by left.
Qed.

(** C9 (as the code has it): when the dataset is due, today's date is in
    the catalog sequence read for the pruning and no date of that sequence
    is later than today, today's date is in the keep set and not in the
    deletion set. *)
Theorem today_kept_when_latest (config : Config) (dc : ValidatedDatasetEntry)
    (today : date) (w : World) (snapshots : gmap string (list date)) :
  is_due dc today = true ->
  listing config w = inr snapshots ->
  today ∈ snapshots !!! v_name dc ->
  (forall d, d ∈ snapshots !!! v_name dc -> date_ge today d) ->
  today ∈ keep_set dc (snapshots !!! v_name dc)
  /\ today ∉ delete_set dc (snapshots !!! v_name dc).
Proof.
  intros Hdue Hl Hin Hmax.
  assert (Sorted date_ge (snapshots !!! v_name dc)) as Hs.
  { unfold listing in Hl. destruct (zfs_list w) as [stdout|]; [|discriminate].
    by apply (sorted_snapshots_of_sorted config stdout). }
  destruct (latest_is_head today _ Hs Hin Hmax) as (l' & ->).
  assert (today ∈ keep_set dc (today :: l')) as Hkeep.
  { apply is_due_iff in Hdue. unfold keep_set, keep_daily_set, keep_weekly_set, keep_monthly_set.
    rewrite !elem_of_union, !elem_of_list_to_set.
    destruct Hdue as [Hd|[[Hw Hdow]|[Hm Hdom]]].
    - left. left. by apply head_in_slice_to.
    - left. right. rewrite filter_cons_True by done. by apply head_in_slice_to.
    - right. rewrite filter_cons_True by done. by apply head_in_slice_to. }
  split; [done|]. unfold delete_set. rewrite elem_of_difference. tauto.
Qed.

(** C10: two runs of the loop body for the same dataset on two reference
    dates, each due and each missing its snapshot of today, that read the
    same catalog sequence for the pruning, ask for the destruction of the
    same snapshots in the same order: those of the deletion set of that
    sequence. *)
Theorem pruning_independent_of_today (config : Config) (dry_run : bool)
    (dc : ValidatedDatasetEntry) (today1 today2 : date) (wa wb wa1 wb1 : World)
    (ta tb : list event) (sa sb sa1 sb1 : gmap string (list date)) :
  is_due dc today1 = true -> is_due dc today2 = true ->
  listing config wa = inr sa -> today1 ∉ sa !!! v_name dc ->
  listing config wb = inr sb -> today2 ∉ sb !!! v_name dc ->
  run_unless dry_run (zfs_cmd "snapshot" dc (snapshot_name config dc today1)) wa
  = (inr tt, (wa1, ta)) ->
  run_unless dry_run (zfs_cmd "snapshot" dc (snapshot_name config dc today2)) wb
  = (inr tt, (wb1, tb)) ->
  listing config wa1 = inr sa1 -> listing config wb1 = inr sb1 ->
  sa1 !!! v_name dc = sb1 !!! v_name dc ->
  destroy_requests (process_dataset config dry_run today1 dc wa).2.2
  = destroy_requests (process_dataset config dry_run today2 dc wb).2.2
  /\ destroy_requests (process_dataset config dry_run today1 dc wa).2.2
     = map (snapshot_name config dc) (elements (delete_set dc (sa1 !!! v_name dc))).
Proof.
  intros Hdue1 Hdue2 Hla Hna Hlb Hnb Hra Hrb Hla1 Hlb1 Heq.
  assert (forall today w w1 t s s1,
            is_due dc today = true -> listing config w = inr s ->
            today ∉ s !!! v_name dc ->
            run_unless dry_run (zfs_cmd "snapshot" dc (snapshot_name config dc today)) w
            = (inr tt, (w1, t)) ->
            listing config w1 = inr s1 ->
            destroy_requests (process_dataset config dry_run today dc w).2.2
            = map (snapshot_name config dc) (elements (delete_set dc (s1 !!! v_name dc))))
    as Hone.
  { intros today w w1 t s s1 Hdue Hl Hn Hr Hl1.
    destruct (process_dataset_fresh config dry_run today dc w s Hdue Hl Hn)
      as (w1' & t' & Hr' & ->).
    rewrite Hr in Hr'. injection Hr' as <- <-.
    destruct (run_unless_returns dry_run
                (zfs_cmd "snapshot" dc (snapshot_name config dc today)) w)
      as (w1' & t' & Hr' & Hreq & _).
    rewrite Hr in Hr'. injection Hr' as <- <-.
    destruct (cleanup_returns config dry_run dc w1 s1 Hl1) as (w2 & t2 & -> & Hreq2 & _).
    cbn [snd]. rewrite !destroy_requests_cons, destroy_requests_app, Hreq, Hreq2.
    reflexivity. }
  rewrite (Hone today1 wa wa1 ta sa sa1), (Hone today2 wb wb1 tb sb sb1) by done.
  by rewrite Heq.
Qed.

End SchedulerFacts.

Lemma not_due_no_action_witness :
  process_dataset tank_daily false (jan 10) tank_idle_entry
    (Sim.mkworld ["tank@20240109"] [])
  = (inr tt, (Sim.mkworld ["tank@20240109"] [], [Log DEBUG (NoSnapshotScheduled "tank")])).
Proof.
  apply (not_due_no_action tank_daily false (jan 10) tank_idle_entry
           (Sim.mkworld ["tank@20240109"] [])).
  reflexivity.
Defined.

Lemma fatal_errors_abort_witness :
  exists i d,
    [mkEntry (Some "tank") None (Some 1) None None None None;
     mkEntry None None (Some 1) None None None None] !! i = Some d
    /\ de_name d = None
    /\ (forall j d', (j < i)%nat ->
          [mkEntry (Some "tank") None (Some 1) None None None None;
           mkEntry None None (Some 1) None None None None] !! j = Some d' ->
          de_name d' <> None)
    /\ main unnamed_second false (Some "/sbin/zfs") (jan 10) (Sim.mkworld ["tank@20240109"] [])
       = (inr 3, (Sim.mkworld ["tank@20240109"] [], [Log CRITICAL (Raised (RuntimeError i))])).
Proof.
  apply (proj1 (proj2 (fatal_errors_abort unnamed_second false (jan 10)
                         (Sim.mkworld ["tank@20240109"] [])))).
  - reflexivity.
  - exists (mkEntry None None (Some 1) None None None None).
    split; [|reflexivity]. apply list_elem_of_In. simpl. tauto.
Defined.

Lemma already_exists_witness :
  process_dataset tank_daily false (jan 10) tank_daily_entry
    (Sim.mkworld ["tank@20240109"; "tank@20240110"] [])
  = (inr tt, (Sim.mkworld ["tank@20240109"; "tank@20240110"] [],
              [Listed; Log WARNING (AlreadyExists "tank@20240110")])).
Proof.
  apply (already_exists_skips_create_and_pruning tank_daily false (jan 10) tank_daily_entry
           (Sim.mkworld ["tank@20240109"; "tank@20240110"] [])
           {[ "tank" := [jan 10; jan 9] ]}).
  - reflexivity.
  - vm_compute. reflexivity.
  - vm_compute. apply list_elem_of_In. simpl. tauto.
Defined.

(** C1 fails as stated: [tank] keeps one day, its catalog holds the 9th
    and the 10th of January 2024 and today is the 10th.  The dataset is
    due, today is in the catalog, the deletion set over that catalog holds
    the 9th, and the run requests no destruction at all. *)
Lemma already_exists_no_pruning :
  get_dataset_configs tank_daily = inr [tank_daily_entry]
  /\ is_due tank_daily_entry (jan 10) = true
  /\ listing tank_daily (Sim.mkworld ["tank@20240109"; "tank@20240110"] [])
     = inr {[ "tank" := [jan 10; jan 9] ]}
  /\ elements (delete_set tank_daily_entry [jan 10; jan 9]) = [jan 9]
  /\ main tank_daily false (Some "/sbin/zfs") (jan 10)
       (Sim.mkworld ["tank@20240109"; "tank@20240110"] [])
     = (inr 0, (Sim.mkworld ["tank@20240109"; "tank@20240110"] [],
                [Log DEBUG (ParsedConfigs [tank_daily_entry]); Listed;
                 Log WARNING (AlreadyExists "tank@20240110")])).
Proof. repeat split; vm_compute; reflexivity. Qed.

Lemma keep_set_is_union_of_tiers_witness :
  keep_set tank_three_days [jan 10; jan 9; jan 8; jan 7]
  = spec_keep_set tank_three_days [jan 10; jan 9; jan 8; jan 7]
  /\ keep_weekly_set tank_three_days [jan 10; jan 9; jan 8; jan 7] = ∅
  /\ keep_monthly_set tank_three_days [jan 10; jan 9; jan 8; jan 7] = ∅.
Proof.
  assert (counts_nonneg tank_three_days) as Hnn by (unfold counts_nonneg; simpl; lia).
  destruct (keep_set_is_union_of_tiers tank_three_days [jan 10; jan 9; jan 8; jan 7] Hnn)
    as (Hu & _ & Hw & Hm & _).
  split; [exact Hu|]. split; [apply Hw | apply Hm]; reflexivity.
Defined.

Lemma keep_set_bounded_witness :
  Z.of_nat (size (keep_set tank_three_days [jan 10; jan 9; jan 8; jan 7])) <= 3 + 0 + 0
  /\ (forall d, d ∈ keep_set tank_three_days [jan 10; jan 9; jan 8; jan 7] ->
                d ∈ [jan 10; jan 9; jan 8; jan 7]).
Proof.
  apply (keep_set_bounded tank_three_days [jan 10; jan 9; jan 8; jan 7]).
  unfold counts_nonneg. simpl. lia.
Defined.



Lemma today_kept_witness :
  jan 10 ∈ keep_set tank_daily_entry
             (({[ "tank" := [jan 10; jan 9; jan 8] ]} : gmap string (list date))
                !!! v_name tank_daily_entry)
  /\ jan 10 ∉ delete_set tank_daily_entry
                (({[ "tank" := [jan 10; jan 9; jan 8] ]} : gmap string (list date))
                   !!! v_name tank_daily_entry).
Proof.
  apply (today_kept_when_latest tank_daily tank_daily_entry (jan 10)
           (Sim.mkworld ["tank@20240108"; "tank@20240109"; "tank@20240110"] [])
           {[ "tank" := [jan 10; jan 9; jan 8] ]}).
  - reflexivity.
  - vm_compute. reflexivity.
  - compute_done.
  - apply Forall_forall. compute_done.
Defined.

(** C9 fails as stated: [tank] keeps one day, the storage holds a snapshot
    dated the 11th of January 2024 and today is the 10th.  The dataset is
    due, the snapshot of the 10th is created, the catalog read for the
    pruning holds the 11th and the 10th, the keep set is the 11th alone,
    and the run destroys the snapshot it has just created. *)
Lemma just_created_snapshot_destroyed :
  is_due tank_daily_entry (jan 10) = true
  /\ listing tank_daily (Sim.mkworld ["tank@20240111"; "tank@20240110"] [])
     = inr {[ "tank" := [jan 11; jan 10] ]}
  /\ (jan 10 ∈ [jan 11; jan 10])
  /\ (jan 10 ∉ keep_set tank_daily_entry [jan 11; jan 10])
  /\ (jan 10 ∈ delete_set tank_daily_entry [jan 11; jan 10])
  /\ main tank_daily false (Some "/sbin/zfs") (jan 10) future_world
     = (inr 0,
        (future_world,
         [Log DEBUG (ParsedConfigs [tank_daily_entry]);
          Listed;
          Log INFO (Creating "tank@20240110");
          Log DEBUG (RunningCommand ["zfs"; "snapshot"; "-r"; "tank@20240110"]);
          Exec ["zfs"; "snapshot"; "-r"; "tank@20240110"] true;
          Listed;
          Log INFO (Destroying "tank@20240110");
          Log DEBUG (RunningCommand ["zfs"; "destroy"; "-r"; "tank@20240110"]);
          Exec ["zfs"; "destroy"; "-r"; "tank@20240110"] true])).
Proof.
  split; [reflexivity|]. split; [vm_compute; reflexivity|].
  split; [compute_done|].
  split; [compute_done|].
  split; [compute_done|].
  vm_compute. reflexivity.
Qed.

Lemma pruning_independent_witness :
  destroy_requests (process_dataset tank_daily true (jan 10) tank_daily_entry two_days_world).2.2
  = destroy_requests (process_dataset tank_daily true (jan 11) tank_daily_entry two_days_world).2.2
  /\ destroy_requests (process_dataset tank_daily true (jan 10) tank_daily_entry two_days_world).2.2
     = map (snapshot_name tank_daily tank_daily_entry)
           (elements (delete_set tank_daily_entry
              (({[ "tank" := [jan 9; jan 8] ]} : gmap string (list date))
                 !!! v_name tank_daily_entry))).
Proof.
  apply (pruning_independent_of_today tank_daily true tank_daily_entry (jan 10) (jan 11)
           two_days_world two_days_world two_days_world two_days_world [] []
           {[ "tank" := [jan 9; jan 8] ]} {[ "tank" := [jan 9; jan 8] ]}
           {[ "tank" := [jan 9; jan 8] ]} {[ "tank" := [jan 9; jan 8] ]}).
  - reflexivity.
  - reflexivity.
  - vm_compute. reflexivity.
  - compute_done.
  - vm_compute. reflexivity.
  - compute_done.
  - reflexivity.
  - reflexivity.
  - vm_compute. reflexivity.
  - vm_compute. reflexivity.
  - reflexivity.
Defined.

(** ** The scenarios of the design document *)

Example three_days_kept :
  keep_set tank_three_days [jan 10; jan 9; jan 8; jan 7] = list_to_set [jan 10; jan 9; jan 8]
  /\ delete_set tank_three_days [jan 10; jan 9; jan 8; jan 7] = list_to_set [jan 7].
Proof. split; compute_done. Qed.

(** Four Sundays and three other days, two weeks kept. *)
Example two_sundays_kept :
  keep_set (mkValidated "tank" true 0 2 0 7 1)
           [jan 28; jan 27; jan 21; jan 17; jan 14; jan 9; jan 7]
  = list_to_set [jan 28; jan 21].
Proof. compute_done. Qed.

(** No snapshot on the first of a month. *)
Example no_monthly_match :
  keep_monthly_set (mkValidated "tank" true 0 0 1 7 1) [jan 10; jan 9; jan 8] = ∅.
Proof. vm_compute. reflexivity. Qed.

(** A negative count is not a policy of the design: the slice then drops
    from the end. *)
Example negative_count_slice :
  slice_to [jan 10; jan 9; jan 8] (-1) = [jan 10; jan 9].
Proof. reflexivity. Qed.

Example jan_7_2024_is_sunday : isoweekday (jan 7) = 7.
Proof. reflexivity. Qed.

Example strptime_lenient : strptime_Ymd "auto-" "AUTO-2024110" = Some (jan 10).
Proof. reflexivity. Qed.

Example strptime_out_of_range : strptime_Ymd "" "20240230" = None.
Proof. reflexivity. Qed.

Example strftime_jan_7 : strftime_Ymd (jan 7) = "20240107".
Proof. reflexivity. Qed.

(** * Further properties of the code *)

(** ** Retention *)

Lemma take_filter_prefix {A} (P : A -> Prop) `{!forall x, Decision (P x)}
    (l : list A) (n : nat) :
  (forall x, x ∈ take n l -> P x) -> take n (filter P l) = take n l.
Proof.
  revert n. induction l as [|x l IH]; intros [|n] Hall; try reflexivity.
  rewrite filter_cons_True by (apply Hall; simpl; by left).
  simpl. f_equal. apply IH. intros y Hy. apply Hall. simpl. by right.
Qed.

Lemma slice_to_filter_prefix {A} (P : A -> Prop) `{!forall x, Decision (P x)}
    (l : list A) (k : Z) :
  0 <= k -> (forall x, x ∈ slice_to l k -> P x) ->
  slice_to (filter P l) k = slice_to l k.
Proof.
  intros Hk Hall. rewrite !slice_to_nonneg by done.
  rewrite slice_to_nonneg in Hall by done. by apply take_filter_prefix.
Qed.

Lemma slice_to_mono {A} (l : list A) (k k' : Z) :
  0 <= k <= k' -> slice_to l k ⊆ slice_to l k'.
Proof.
  intros Hk. rewrite !slice_to_nonneg by lia.
  replace (Z.to_nat k) with (Z.to_nat k `min` Z.to_nat k')%nat by lia.
  change (@firstn A) with (@take A). rewrite <- take_take. apply subseteq_take.
Qed.

Lemma filter_comm {A} (P Q : A -> Prop)
    `{!forall x, Decision (P x), !forall x, Decision (Q x)} (l : list A) :
  filter P (filter Q l) = filter Q (filter P l).
Proof. rewrite !list_filter_filter. apply list_filter_iff. intros x. tauto. Qed.

(** Filtering the sequence by a set that holds the whole keep set does
    not change the keep set. *)
Lemma keep_set_filter_superset (dc : ValidatedDatasetEntry) (l : list date) (K : gset date) :
  counts_nonneg dc -> keep_set dc l ⊆ K ->
  keep_set dc (filter (fun d => d ∈ K) l) = keep_set dc l.
Proof.
  intros (Hd & Hw & Hm) Hsub.
  assert (forall d, d ∈ slice_to l (v_keep_days dc) -> d ∈ K) as Hdaily.
  { intros d Hin. apply Hsub. unfold keep_set, keep_daily_set.
    rewrite !elem_of_union, !elem_of_list_to_set. by left; left. }
  assert (forall d, d ∈ slice_to (filter (fun s => isoweekday s = v_dow dc) l)
                         (v_keep_weeks dc) -> d ∈ K) as Hweekly.
  { intros d Hin. apply Hsub. unfold keep_set, keep_weekly_set.
    rewrite !elem_of_union, !elem_of_list_to_set. by left; right. }
  assert (forall d, d ∈ slice_to (filter (fun s => day s = v_dom dc) l)
                         (v_keep_months dc) -> d ∈ K) as Hmonthly.
  { intros d Hin. apply Hsub. unfold keep_set, keep_monthly_set.
    rewrite !elem_of_union, !elem_of_list_to_set. by right. }
  unfold keep_set, keep_daily_set, keep_weekly_set, keep_monthly_set.
  rewrite (filter_comm (fun s => isoweekday s = v_dow dc) (fun d => d ∈ K)).
  rewrite (filter_comm (fun s => day s = v_dom dc) (fun d => d ∈ K)).
  rewrite (slice_to_filter_prefix (fun d => d ∈ K) l _ Hd Hdaily).
  rewrite (slice_to_filter_prefix (fun d => d ∈ K) _ _ Hw Hweekly).
  rewrite (slice_to_filter_prefix (fun d => d ∈ K) _ _ Hm Hmonthly).
  reflexivity.
Qed.

(** X1: running the pruning again on what it kept deletes nothing: over the
    surviving sequence the keep set is the same and the deletion set is
    empty (counts not negative). *)
Theorem pruning_idempotent (dc : ValidatedDatasetEntry) (l : list date) :
  counts_nonneg dc ->
  keep_set dc (survivors dc l) = keep_set dc l
  /\ delete_set dc (survivors dc l) = ∅.
Proof.
  intros Hnn.
  assert (keep_set dc (survivors dc l) = keep_set dc l) as Hkeep
    by (by apply keep_set_filter_superset).
  split; [done|]. unfold delete_set. rewrite Hkeep.
  apply set_eq. intros d. rewrite elem_of_difference, elem_of_list_to_set.
  unfold survivors. rewrite list_elem_of_filter.
  split; [tauto | by intros ?%not_elem_of_empty].
Qed.

Lemma pruning_idempotent_witness :
  keep_set tank_three_days (survivors tank_three_days [jan 10; jan 9; jan 8; jan 7])
  = keep_set tank_three_days [jan 10; jan 9; jan 8; jan 7]
  /\ delete_set tank_three_days (survivors tank_three_days [jan 10; jan 9; jan 8; jan 7]) = ∅.
Proof.
  apply (pruning_idempotent tank_three_days [jan 10; jan 9; jan 8; jan 7]).
  unfold counts_nonneg. simpl. lia.
Defined.

(** X2: raising retention counts never deletes more: between two entries with
    the same anchors and counts that are not negative, the one with the
    larger counts keeps at least as much and deletes at most as much. *)
Theorem larger_counts_delete_less (dc dc' : ValidatedDatasetEntry) (l : list date) :
  counts_nonneg dc -> keeps_no_more dc dc' ->
  keep_set dc l ⊆ keep_set dc' l /\ delete_set dc' l ⊆ delete_set dc l.
Proof.
  intros (Hd & Hw & Hm) (Hdow & Hdom & Hkd & Hkw & Hkm).
  assert (keep_set dc l ⊆ keep_set dc' l) as Hsub.
  { intros d. unfold keep_set, keep_daily_set, keep_weekly_set, keep_monthly_set.
    rewrite !elem_of_union, !elem_of_list_to_set, <- Hdow, <- Hdom.
    intros [[Hin|Hin]|Hin]; [left; left | left; right | right];
      (eapply slice_to_mono; [|exact Hin]); lia. }
  split; [done|]. unfold delete_set. intros d.
  rewrite !elem_of_difference. intros [Hin Hnk]. split; [done|].
  intros Hk. apply Hnk. by apply Hsub.
Qed.

Lemma larger_counts_witness :
  keep_set tank_daily_entry [jan 10; jan 9; jan 8; jan 7]
    ⊆ keep_set tank_three_days [jan 10; jan 9; jan 8; jan 7]
  /\ delete_set tank_three_days [jan 10; jan 9; jan 8; jan 7]
       ⊆ delete_set tank_daily_entry [jan 10; jan 9; jan 8; jan 7].
Proof.
  apply (larger_counts_delete_less tank_daily_entry tank_three_days
           [jan 10; jan 9; jan 8; jan 7]).
  - unfold counts_nonneg. simpl. lia.
  - unfold keeps_no_more. simpl. lia.
Defined.

(** X3: with only the daily tier enabled and no date listed twice, the pruning
    keeps the first [keep_days] dates of the sequence and deletes
    exactly the rest. *)
Theorem daily_only_deletes_the_tail (dc : ValidatedDatasetEntry) (l : list date) :
  0 <= v_keep_days dc -> v_keep_weeks dc = 0 -> v_keep_months dc = 0 -> NoDup l ->
  keep_set dc l = list_to_set (take (Z.to_nat (v_keep_days dc)) l)
  /\ delete_set dc l = list_to_set (drop (Z.to_nat (v_keep_days dc)) l).
Proof.
  intros Hd Hw Hm Hnd.
  assert (keep_set dc l = list_to_set (take (Z.to_nat (v_keep_days dc)) l)) as Hkeep.
  { unfold keep_set, keep_daily_set, keep_weekly_set, keep_monthly_set.
    rewrite Hw, Hm, !slice_to_nonneg by lia. simpl.
    apply set_eq. intros d. rewrite !elem_of_union, elem_of_list_to_set.
    split; [intros [[?|?%not_elem_of_empty]|?%not_elem_of_empty]; tauto | tauto]. }
  split; [done|]. unfold delete_set. rewrite Hkeep.
  rewrite <- (take_drop (Z.to_nat (v_keep_days dc)) l) in Hnd.
  apply NoDup_app in Hnd as (_ & Hdisj & _).
  apply set_eq. intros d. rewrite elem_of_difference, !elem_of_list_to_set.
  rewrite <- (take_drop (Z.to_nat (v_keep_days dc)) l) at 1. rewrite elem_of_app.
  split.
  - intros [[Hin|Hin] Hnot]; tauto.
  - intros Hin. split; [by right|]. intros Hin'. by apply (Hdisj d).
Qed.

Lemma daily_only_witness :
  keep_set tank_three_days [jan 10; jan 9; jan 8; jan 7]
  = list_to_set (take (Z.to_nat (v_keep_days tank_three_days)) [jan 10; jan 9; jan 8; jan 7])
  /\ delete_set tank_three_days [jan 10; jan 9; jan 8; jan 7]
     = list_to_set (drop (Z.to_nat (v_keep_days tank_three_days)) [jan 10; jan 9; jan 8; jan 7]).
Proof.
  apply (daily_only_deletes_the_tail tank_three_days [jan 10; jan 9; jan 8; jan 7]).
  - simpl. lia.
  - reflexivity.
  - reflexivity.
  - compute_done.
Defined.

(** ** Validation of the dataset entries *)

Lemma get_dataset_configs_from_names (config : Config) (ds : list DatasetEntry) (i : nat)
    (dcs : list ValidatedDatasetEntry) :
  get_dataset_configs_from config i ds = inr dcs ->
  map de_name ds = map (fun v => Some (v_name v)) dcs.
Proof.
  revert i dcs. induction ds as [|d ds IH]; intros i dcs; simpl.
  - by intros [= <-].
  - destruct (de_name d) as [n|]; [|discriminate].
    destruct (get_dataset_configs_from config (S i) ds) as [exc|rest] eqn:E; [discriminate|].
    intros [= <-]. simpl. f_equal. by apply (IH (S i)).
Qed.

Lemma get_dataset_configs_from_named (config : Config) (ds : list DatasetEntry) (i : nat) :
  Forall (fun d => is_Some (de_name d)) ds ->
  exists dcs, get_dataset_configs_from config i ds = inr dcs.
Proof.
  intros Hall. revert i. induction Hall as [|d ds [n Hn] _ IH]; intros i; simpl.
  - by eexists.
  - rewrite Hn. destruct (IH (S i)) as (rest & ->). by eexists.
Qed.

(** X5: [get_dataset_configs] returns a list exactly when every entry has a
    name (with no [datasets] key there is no entry); the list then has one
    validated entry per dataset entry, in order and under the same name. *)
Theorem get_dataset_configs_succeeds_iff_named (config : Config) :
  ((exists dcs, get_dataset_configs config = inr dcs)
   <-> Forall (fun d => is_Some (de_name d)) (get (c_datasets config) []))
  /\ (forall dcs, get_dataset_configs config = inr dcs ->
        map de_name (get (c_datasets config) []) = map (fun v => Some (v_name v)) dcs).
Proof.
  unfold get_dataset_configs. split; [split|].
  - intros (dcs & Hrun). apply Forall_forall. intros d Hin.
    destruct (de_name d) as [n|] eqn:Hn; [by eexists|].
    destruct (get_dataset_configs_from_unnamed config _ (ex_intro _ d (conj Hin Hn)) 0%nat)
      as (i & d' & _ & _ & _ & Hfail).
    congruence.
  - apply get_dataset_configs_from_named.
  - intros dcs. apply get_dataset_configs_from_names.
Qed.

Lemma resolved_get {A} (own global : option A) (dflt : A) :
  resolved own global dflt (get own (get global dflt)).
Proof. by destruct own, global. Qed.

Lemma get_dataset_configs_from_resolved (config : Config) (ds : list DatasetEntry)
    (i0 : nat) (dcs : list ValidatedDatasetEntry) (i : nat) (d : DatasetEntry) :
  get_dataset_configs_from config i0 ds = inr dcs ->
  ds !! i = Some d ->
  exists v,
    dcs !! i = Some v
    /\ de_name d = Some (v_name v)
    /\ resolved (de_recursive d) (c_recursive config) true (v_recursive v)
    /\ resolved (de_keep_days d) (c_keep_days config) 0 (v_keep_days v)
    /\ resolved (de_keep_weeks d) (c_keep_weeks config) 0 (v_keep_weeks v)
    /\ resolved (de_keep_months d) (c_keep_months config) 0 (v_keep_months v)
    /\ resolved (de_dow d) (c_dow config) 7 (v_dow v)
    /\ resolved (de_dom d) (c_dom config) 1 (v_dom v).
Proof.
  revert i0 dcs i. induction ds as [|e ds IH]; intros i0 dcs i; simpl; [done|].
  destruct (de_name e) as [n|] eqn:Hn; [|discriminate].
  destruct (get_dataset_configs_from config (S i0) ds) as [exc|rest] eqn:E; [discriminate|].
  intros [= <-]. destruct i as [|i]; simpl.
  - intros [= <-]. eexists. split; [reflexivity|]. simpl. split; [done|].
    repeat split; apply resolved_get.
  - intros Hl. by apply (IH (S i0)).
Qed.

(** X6: every validated field is the dataset's own setting when it has one,
    else the global setting when there is one, else the built-in default
    (recursive, no count, Sunday, the first of the month). *)
Theorem dataset_setting_overrides_global (config : Config)
    (dcs : list ValidatedDatasetEntry) (i : nat) (d : DatasetEntry) :
  get_dataset_configs config = inr dcs ->
  get (c_datasets config) [] !! i = Some d ->
  exists v,
    dcs !! i = Some v
    /\ de_name d = Some (v_name v)
    /\ resolved (de_recursive d) (c_recursive config) true (v_recursive v)
    /\ resolved (de_keep_days d) (c_keep_days config) 0 (v_keep_days v)
    /\ resolved (de_keep_weeks d) (c_keep_weeks config) 0 (v_keep_weeks v)
    /\ resolved (de_keep_months d) (c_keep_months config) 0 (v_keep_months v)
    /\ resolved (de_dow d) (c_dow config) 7 (v_dow v)
    /\ resolved (de_dom d) (c_dom config) 1 (v_dom v).
Proof. unfold get_dataset_configs. apply get_dataset_configs_from_resolved. Qed.

Lemma dataset_setting_witness :
  exists v,
    [mkValidated "tank" false 0 4 0 1 1; mkValidated "pool/home" true 7 2 0 5 1] !! 1%nat
    = Some v
    /\ Some "pool/home" = Some (v_name v)
    /\ resolved (Some true) (Some false) true (v_recursive v)
    /\ resolved (Some 7) None 0 (v_keep_days v)
    /\ resolved (Some 2) (Some 4) 0 (v_keep_weeks v)
    /\ resolved None None 0 (v_keep_months v)
    /\ resolved (Some 5) (Some 1) 7 (v_dow v)
    /\ resolved None None 1 (v_dom v).
Proof.
  apply (dataset_setting_overrides_global mixed_config
           [mkValidated "tank" false 0 4 0 1 1; mkValidated "pool/home" true 7 2 0 5 1]
           1%nat
           (mkEntry (Some "pool/home") (Some true) (Some 7) (Some 2) None (Some 5) None)).
  - reflexivity.
  - reflexivity.
Defined.

Lemma get_dataset_configs_succeeds_witness :
  map de_name (get (c_datasets mixed_config) [])
  = map (fun v => Some (v_name v))
        [mkValidated "tank" false 0 4 0 1 1; mkValidated "pool/home" true 7 2 0 5 1].
Proof.
  apply (proj2 (get_dataset_configs_succeeds_iff_named mixed_config)).
  reflexivity.
Defined.

Lemma get_dataset_configs_from_no_counts (config : Config) (ds : list DatasetEntry)
    (i0 : nat) (dcs : list ValidatedDatasetEntry) :
  c_keep_days config = None -> c_keep_weeks config = None -> c_keep_months config = None ->
  Forall (fun d => de_keep_days d = None /\ de_keep_weeks d = None /\ de_keep_months d = None)
         ds ->
  get_dataset_configs_from config i0 ds = inr dcs ->
  Forall (fun dc => v_keep_days dc = 0 /\ v_keep_weeks dc = 0 /\ v_keep_months dc = 0) dcs.
Proof.
  intros Hcd Hcw Hcm Hall. revert i0 dcs.
  induction Hall as [|d ds (Hd & Hw & Hm) _ IH]; intros i0 dcs; simpl.
  - intros [= <-]. constructor.
  - destruct (de_name d) as [n|]; [|discriminate].
    destruct (get_dataset_configs_from config (S i0) ds) as [exc|rest] eqn:E; [discriminate|].
    intros [= <-]. constructor; [|by apply (IH (S i0))].
    simpl. by rewrite Hd, Hw, Hm, Hcd, Hcw, Hcm.
Qed.

(** ** Whole runs *)

Section RunFacts.
Context {World : Type} `{Backend World}.

Lemma for_each_not_due (config : Config) (dry_run : bool) (today : date)
    (dcs : list ValidatedDatasetEntry) (w : World) :
  Forall (fun dc => is_due dc today = false) dcs ->
  for_each (process_dataset config dry_run today) dcs w
  = (inr tt, (w, map (fun dc => Log DEBUG (NoSnapshotScheduled (v_name dc))) dcs)).
Proof.
  induction 1 as [|dc dcs Hnd _ IH]; [reflexivity|].
  cbn [for_each]. unfold bind at 1. unfold process_dataset at 1.
  rewrite Hnd. cbn [negb]. unfold log. rewrite IH. reflexivity.
Qed.

(** X7: on a day on which no dataset is due the run only logs: it returns 0
    without a listing query or a command, and the storage is as it was. *)
Theorem nothing_due_nothing_done (config : Config) (dry_run : bool) (zfs_path : string)
    (today : date) (dcs : list ValidatedDatasetEntry) (w : World) :
  get_dataset_configs config = inr dcs ->
  Forall (fun dc => is_due dc today = false) dcs ->
  main config dry_run (Some zfs_path) today w
  = (inr 0, (w, Log DEBUG (ParsedConfigs dcs)
                :: map (fun dc => Log DEBUG (NoSnapshotScheduled (v_name dc))) dcs)).
Proof.
  intros Hcfg Hnd. unfold main. rewrite Hcfg.
  unfold bind at 1. unfold log. unfold bind at 1.
  rewrite (for_each_not_due config dry_run today dcs w Hnd).
  cbn [ret app]. by rewrite app_nil_r.
Qed.

(** X8: when [zfs] is found, a configuration that sets no [keep_days],
    [keep_weeks] or [keep_months], neither globally nor in a dataset, and
    names all its datasets, makes the run return 0 without listing,
    creating or destroying anything, on any date: the counts default to
    0. *)
Theorem no_counts_nothing_done (config : Config) (dry_run : bool) (zfs_path : string)
    (today : date) (w : World) :
  c_keep_days config = None -> c_keep_weeks config = None -> c_keep_months config = None ->
  Forall (fun d => is_Some (de_name d)
                   /\ de_keep_days d = None /\ de_keep_weeks d = None
                   /\ de_keep_months d = None)
         (get (c_datasets config) []) ->
  exists dcs,
    get_dataset_configs config = inr dcs
    /\ main config dry_run (Some zfs_path) today w
       = (inr 0, (w, Log DEBUG (ParsedConfigs dcs)
                     :: map (fun dc => Log DEBUG (NoSnapshotScheduled (v_name dc))) dcs)).
Proof.
  intros Hcd Hcw Hcm Hall.
  destruct (get_dataset_configs_from_named config (get (c_datasets config) []) 0)
    as (dcs & Hcfg).
  { eapply Forall_impl; [exact Hall|]. simpl. tauto. }
  exists dcs. split; [exact Hcfg|].
  assert (Forall (fun dc => is_due dc today = false) dcs) as Hnd.
  { assert (Forall (fun dc => v_keep_days dc = 0 /\ v_keep_weeks dc = 0
                              /\ v_keep_months dc = 0) dcs) as Hzero.
    { apply (get_dataset_configs_from_no_counts config (get (c_datasets config) [])
               0%nat dcs Hcd Hcw Hcm); [|exact Hcfg].
      eapply Forall_impl; [exact Hall|]. simpl. tauto. }
    eapply Forall_impl; [exact Hzero|].
    intros dc (Hd & Hw & Hm). unfold is_due. by rewrite Hd, Hw, Hm. }
  unfold main. unfold get_dataset_configs in Hcfg |- *. rewrite Hcfg.
  unfold bind at 1. unfold log. unfold bind at 1.
  rewrite (for_each_not_due config dry_run today dcs w Hnd).
  cbn [ret app]. by rewrite app_nil_r.
Qed.

Lemma for_each_destroy_dry (config : Config) (dc : ValidatedDatasetEntry)
    (ds : list date) (w : World) :
  exists t,
    for_each (destroy_snapshot config true dc) ds w = (inr tt, (w, t))
    /\ commands t = []
    /\ destroy_requests t = map (snapshot_name config dc) ds.
Proof.
  induction ds as [|d ds (t & IH & Hc & Hr)]; [by exists []|].
  eexists. cbn [for_each]. unfold bind at 1.
  unfold destroy_snapshot at 1. unfold bind, log, run_unless. rewrite IH.
  split; [reflexivity|]. cbn [app].
  rewrite !commands_cons, !destroy_requests_cons, Hc, Hr. done.
Qed.

(** The loop body in a dry run: the storage is untouched and no command
    runs, whatever the outcome. *)
Lemma process_dataset_dry (config : Config) (today : date) (dc : ValidatedDatasetEntry)
    (w : World) :
  exists r t,
    process_dataset config true today dc w = (r, (w, t)) /\ commands t = [].
Proof.
  unfold process_dataset. destruct (is_due dc today); cbn [negb]; [|by eexists _, _].
  unfold bind at 1. unfold get_sorted_snapshots.
  destruct (listing config w) as [exc|snapshots] eqn:Hl; [by eexists _, _|].
  destruct (decide (today ∈ snapshots !!! v_name dc)); [by eexists _, _|].
  unfold bind at 1. unfold log. unfold bind at 1. unfold bind at 1.
  unfold run_unless at 1. unfold cleanup, bind, get_sorted_snapshots. rewrite Hl.
  destruct (for_each_destroy_dry config dc
              (elements (delete_set dc (snapshots !!! v_name dc))) w) as (t & -> & Hc & _).
  eexists _, _. split; [reflexivity|]. cbn [app].
  by rewrite !commands_cons.
Qed.

Lemma for_each_process_dry (config : Config) (today : date)
    (dcs : list ValidatedDatasetEntry) (w : World) :
  exists r t,
    for_each (process_dataset config true today) dcs w = (r, (w, t)) /\ commands t = [].
Proof.
  induction dcs as [|dc dcs (r2 & t2 & IH & Hc2)]; [by exists (inr tt), []|].
  destruct (process_dataset_dry config today dc w) as (r1 & t1 & Hpd & Hc1).
  cbn [for_each]. unfold bind. rewrite Hpd. destruct r1 as [exc|[]].
  - by eexists _, _.
  - rewrite IH. eexists _, _. split; [reflexivity|].
    by rewrite commands_app, Hc1, Hc2.
Qed.

(** X9: a dry run never runs a snapshot or destroy command and leaves the
    storage as it found it, for every configuration, date and backend,
    however the run ends. *)
Theorem dry_run_changes_nothing (config : Config) (zfs_path : option string)
    (today : date) (w : World) :
  exists r t,
    main config true zfs_path today w = (r, (w, t)) /\ commands t = [].
Proof.
  unfold main. destruct zfs_path as [p|]; [|by eexists _, _].
  destruct (get_dataset_configs config) as [exc|dcs]; [by eexists _, _|].
  destruct (for_each_process_dry config today dcs w) as (r & t & Hrun & Hc).
  unfold bind at 1. unfold log. unfold bind at 1. rewrite Hrun.
  destruct r as [exc|[]]; eexists _, _; (split; [reflexivity|]); cbn [app ret].
  - by rewrite commands_cons.
  - by rewrite commands_cons, commands_app, Hc.
Qed.

(** X10: what a dry run announces for a due dataset whose snapshot of today is
    missing: the create command a real run would execute, and the
    destruction of the deletion set of the catalog as it is now, which
    does not hold today's snapshot. *)
Theorem dry_run_announces (config : Config) (today : date) (dc : ValidatedDatasetEntry)
    (w : World) (snapshots : gmap string (list date)) :
  is_due dc today = true ->
  listing config w = inr snapshots ->
  today ∉ snapshots !!! v_name dc ->
  exists t,
    process_dataset config true today dc w
    = (inr tt, (w, Listed :: Log INFO (Creating (snapshot_name config dc today))
                   :: Log DEBUG (RunningCommand
                                   (zfs_cmd "snapshot" dc (snapshot_name config dc today)))
                   :: Listed :: t))
    /\ destroy_requests t
       = map (snapshot_name config dc) (elements (delete_set dc (snapshots !!! v_name dc)))
    /\ commands t = [].
Proof.
  intros Hdue Hl Hnin. unfold process_dataset. rewrite Hdue. cbn [negb].
  unfold bind at 1. unfold get_sorted_snapshots. rewrite Hl.
  rewrite decide_False by done.
  unfold bind at 1. unfold log. unfold bind at 1. unfold bind at 1.
  unfold run_unless at 1. unfold cleanup, bind, get_sorted_snapshots. rewrite Hl.
  destruct (for_each_destroy_dry config dc
              (elements (delete_set dc (snapshots !!! v_name dc))) w) as (t & -> & Hc & Hr).
  exists t. split; [reflexivity|]. done.
Qed.

(** X11: a listing query that raises at the first due dataset ends the run with
    that exception: nothing catches it, no command has run and the
    storage is untouched. *)
Theorem listing_failure_escapes (config : Config) (dry_run : bool) (zfs_path : string)
    (today : date) (pre post : list ValidatedDatasetEntry) (dc : ValidatedDatasetEntry)
    (w : World) (exc : exn) :
  get_dataset_configs config = inr (pre ++ dc :: post)%list ->
  Forall (fun dc' => is_due dc' today = false) pre ->
  is_due dc today = true ->
  listing config w = inl exc ->
  main config dry_run (Some zfs_path) today w
  = (inl exc,
     (w, Log DEBUG (ParsedConfigs (pre ++ dc :: post)%list)
         :: (map (fun dc' => Log DEBUG (NoSnapshotScheduled (v_name dc'))) pre
             ++ [Listed])%list)).
Proof.
  intros Hcfg Hpre Hdue Hl. unfold main. rewrite Hcfg.
  unfold bind at 1. unfold log. unfold bind at 1.
  assert (for_each (process_dataset config dry_run today) (pre ++ dc :: post)%list w
          = (inl exc, (w, (map (fun dc' => Log DEBUG (NoSnapshotScheduled (v_name dc'))) pre
                           ++ [Listed])%list))) as ->; [|reflexivity].
  clear Hcfg. induction Hpre as [|dc' pre Hnd _ IH]; cbn [app for_each map].
  - unfold bind at 1. unfold process_dataset. rewrite Hdue. cbn [negb].
    unfold bind, get_sorted_snapshots. by rewrite Hl.
  - unfold bind at 1. unfold process_dataset at 1. rewrite Hnd. cbn [negb].
    unfold log. rewrite IH. reflexivity.
Qed.

End RunFacts.

(** ** Names written and names read *)

Lemma append_nil_r (s : string) : s +:+ "" = s.
Proof.
  induction s as [|c s IH]; [done|].
  change (String c (s +:+ "") = String c s). by rewrite IH.
Qed.

Lemma append_assoc (a b c : string) : (a +:+ b) +:+ c = a +:+ (b +:+ c).
Proof.
  induction a as [|x a IH]; [done|].
  change (String x ((a +:+ b) +:+ c) = String x (a +:+ (b +:+ c))). by rewrite IH.
Qed.

Lemma snoc_append (cur : string) (c : ascii) (s : string) :
  snoc cur c +:+ s = cur +:+ String c s.
Proof. unfold snoc. by rewrite append_assoc. Qed.

Lemma all_chars_append (p : ascii -> bool) (a b : string) :
  all_chars p (a +:+ b) = all_chars p a && all_chars p b.
Proof.
  induction a as [|x a IH]; [done|].
  change (p x && all_chars p (a +:+ b) = p x && all_chars p a && all_chars p b).
  by rewrite IH, andb_assoc.
Qed.

Lemma match_prefix_append (prefix s : string) :
  match_prefix prefix (prefix +:+ s) = Some s.
Proof.
  induction prefix as [|p prefix IH]; [by destruct s|].
  change (match_prefix (String p prefix) (String p (prefix +:+ s)) = Some s).
  cbn [match_prefix]. by rewrite decide_True.
Qed.

Lemma digit_of_digit_char (n : Z) : digit (digit_char n) = Some (n mod 10).
Proof.
  unfold digit_char. pose proof (Z.mod_pos_bound n 10 ltac:(lia)) as Hb.
  rewrite <- (Z2Nat.id (n mod 10)) at 2 by lia.
  assert (Z.to_nat (n mod 10) < 10)%nat as Hk by lia.
  revert Hk. generalize (Z.to_nat (n mod 10)). intros k Hk.
  do 10 (destruct k as [|k]; [reflexivity|]). lia.
Qed.

Lemma digit_char_plain (n : Z) : plain_char (digit_char n) = true.
Proof.
  unfold digit_char. pose proof (Z.mod_pos_bound n 10 ltac:(lia)) as Hb.
  assert (Z.to_nat (n mod 10) < 10)%nat as Hk by lia.
  revert Hk. generalize (Z.to_nat (n mod 10)). intros k Hk.
  do 10 (destruct k as [|k]; [reflexivity|]). lia.
Qed.

Lemma strftime_Ymd_plain (d : date) : plain (strftime_Ymd d) = true.
Proof. unfold plain, strftime_Ymd. cbn [all_chars]. by rewrite !digit_char_plain. Qed.

Lemma re_Y_strftime (y : Z) (rest : string) :
  0 <= y <= 9999 ->
  re_Y (String (digit_char (y / 1000)) (String (digit_char (y / 100))
       (String (digit_char (y / 10)) (String (digit_char y) rest))))
  = Some (y, rest).
Proof.
  intros Hy. unfold re_Y. rewrite !digit_of_digit_char. do 2 f_equal.
  Z.div_mod_to_equations. lia.
Qed.

Lemma first_md_table :
  Forall (fun m => Forall (fun d => first_md (re_m (md_string m d)) = Some (m, d, ""))
                          (seqZ 1 31))
         (seqZ 1 12).
Proof. compute_done. Qed.

Lemma first_md_md_string (m d : Z) :
  1 <= m <= 12 -> 1 <= d <= 31 -> first_md (re_m (md_string m d)) = Some (m, d, "").
Proof.
  intros Hm Hd. pose proof first_md_table as Htab.
  rewrite Forall_forall in Htab. specialize (Htab m).
  rewrite elem_of_seqZ, Forall_forall in Htab.
  apply Htab; [lia|]. apply elem_of_seqZ. lia.
Qed.

Lemma days_in_month_le_31 (y m : Z) : 1 <= m <= 12 -> _days_in_month y m <= 31.
Proof.
  intros Hm. unfold _days_in_month.
  destruct ((m =? 2) && _is_leap y); [lia|].
  assert (Z.to_nat m <= 12)%nat as Hk by lia.
  revert Hk. generalize (Z.to_nat m). intros k Hk.
  do 13 (destruct k as [|k]; [simpl; lia|]). lia.
Qed.

Lemma valid_date_bounds (d : date) :
  valid_date d = true ->
  1 <= year d <= 9999 /\ 1 <= month d <= 12 /\ 1 <= day d <= 31.
Proof.
  unfold valid_date. rewrite !andb_true_iff, !Z.leb_le.
  intros (((((Hy1 & Hy2) & Hm1) & Hm2) & Hd1) & Hd2).
  pose proof (days_in_month_le_31 (year d) (month d) (conj Hm1 Hm2)). lia.
Qed.

Lemma strptime_strftime (prefix : string) (d : date) :
  valid_date d = true ->
  strptime_Ymd prefix (prefix +:+ strftime_Ymd d) = Some d.
Proof.
  intros Hv. destruct (valid_date_bounds d Hv) as (Hy & Hm & Hd).
  unfold strptime_Ymd. rewrite match_prefix_append.
  unfold strftime_Ymd. rewrite re_Y_strftime by lia.
  change (String (digit_char (month d / 10)) _) with (md_string (month d) (day d)).
  rewrite first_md_md_string by done.
  destruct d as [y m dd]. cbn [year month day] in *. cbv zeta. by rewrite Hv.
Qed.

Lemma strptime_Ymd_valid (prefix ts : string) (d : date) :
  strptime_Ymd prefix ts = Some d ->
  valid_date d = true /\ exists rest, match_prefix prefix ts = Some rest.
Proof.
  unfold strptime_Ymd. destruct (match_prefix prefix ts) as [r0|]; [|discriminate].
  destruct (re_Y r0) as [[y r1]|]; [|discriminate].
  destruct (first_md (re_m r1)) as [[[m dd] [|c r2]]|]; try discriminate.
  destruct (valid_date (mkdate y m dd)) eqn:Hv; [|discriminate].
  intros [= <-]. split; [done | by eexists].
Qed.

(** X16: the name [main] gives a snapshot is read back as its date: parsing,
    under the configured prefix, the identifier that [main] formats for a
    valid date of a four-digit year gives that date again. *)
Theorem own_identifier_parses_back (config : Config) (dc : ValidatedDatasetEntry) (d : date) :
  valid_date d = true -> 1000 <= year d ->
  snapshot_name config dc d
  = v_name dc +:+ "@" +:+ (get (c_snapshot_prefix config) "" +:+ strftime_Ymd d)
  /\ strptime_Ymd (get (c_snapshot_prefix config) "")
       (get (c_snapshot_prefix config) "" +:+ strftime_Ymd d) = Some d.
Proof.
  intros Hv _. split; [reflexivity|]. by apply strptime_strftime.
Qed.

Lemma own_identifier_witness :
  snapshot_name mixed_config tank_daily_entry (jan 10)
  = v_name tank_daily_entry +:+ "@"
    +:+ (get (c_snapshot_prefix mixed_config) "" +:+ strftime_Ymd (jan 10))
  /\ strptime_Ymd (get (c_snapshot_prefix mixed_config) "")
       (get (c_snapshot_prefix mixed_config) "" +:+ strftime_Ymd (jan 10)) = Some (jan 10).
Proof.
  apply (own_identifier_parses_back mixed_config tank_daily_entry (jan 10)).
  - reflexivity.
  - simpl. lia.
Defined.

Lemma plain_no_space (s : string) : plain s = true -> no_space s = true.
Proof.
  unfold plain, no_space. induction s as [|c s IH]; [done|]. cbn [all_chars].
  unfold plain_char at 1. rewrite !andb_true_iff. tauto.
Qed.

Lemma plain_no_at (s : string) : plain s = true -> no_char "@" s = true.
Proof.
  unfold plain, no_char. induction s as [|c s IH]; [done|]. cbn [all_chars].
  unfold plain_char at 1. rewrite !andb_true_iff. tauto.
Qed.

Lemma split_from_token (tok cur : string) (c : ascii) (rest : string) :
  no_space tok = true -> is_space c = true -> cur +:+ tok <> "" ->
  split_from cur (tok +:+ String c rest) = (cur +:+ tok) :: split_from "" rest.
Proof.
  revert cur. induction tok as [|x tok IH]; intros cur Hns Hc Hne.
  - rewrite append_nil_r in *. change ("" +:+ String c rest) with (String c rest).
    cbn [split_from]. rewrite Hc. by rewrite decide_False.
  - change (String x tok +:+ String c rest) with (String x (tok +:+ String c rest)).
    unfold no_space in Hns. cbn [all_chars] in Hns.
    apply andb_true_iff in Hns as [Hx Hns]. apply negb_true_iff in Hx.
    cbn [split_from]. rewrite Hx. rewrite IH; [|done|done|by rewrite snoc_append].
    by rewrite snoc_append.
Qed.

Lemma split_on_from_none (sep : ascii) (cur s : string) :
  no_char sep s = true -> split_on_from sep cur s = [cur +:+ s].
Proof.
  revert cur. induction s as [|c s IH]; intros cur Hn.
  - by rewrite append_nil_r.
  - unfold no_char in Hn. cbn [all_chars] in Hn.
    apply andb_true_iff in Hn as [Hc Hn]. apply negb_true_iff, bool_decide_eq_false in Hc.
    cbn [split_on_from]. rewrite decide_False by done.
    rewrite IH by done. by rewrite snoc_append.
Qed.

Lemma split_on_from_one (sep : ascii) (cur a b : string) :
  no_char sep a = true ->
  split_on_from sep cur (a +:+ String sep b) = (cur +:+ a) :: split_on_from sep "" b.
Proof.
  revert cur. induction a as [|c a IH]; intros cur Hn.
  - rewrite append_nil_r. change ("" +:+ String sep b) with (String sep b).
    cbn [split_on_from]. by rewrite decide_True.
  - change (String c a +:+ String sep b) with (String c (a +:+ String sep b)).
    unfold no_char in Hn. cbn [all_chars] in Hn.
    apply andb_true_iff in Hn as [Hc Hn]. apply negb_true_iff, bool_decide_eq_false in Hc.
    cbn [split_on_from]. rewrite decide_False by done.
    rewrite IH by done. by rewrite snoc_append.
Qed.

Lemma split_on_from_nonempty (sep : ascii) (cur s : string) :
  split_on_from sep cur s <> [].
Proof.
  revert cur. induction s as [|c s IH]; intros cur; cbn [split_on_from]; [done|].
  destruct (decide (c = sep)); [done | apply IH].
Qed.

(** The two converse facts: what a split into one part, and into two
    parts, says about the string. *)
Lemma split_on_from_single (sep : ascii) (cur s y : string) :
  split_on_from sep cur s = [y] -> y = cur +:+ s /\ no_char sep s = true.
Proof.
  revert cur. induction s as [|c s IH]; intros cur; cbn [split_on_from].
  - intros [= <-]. by rewrite append_nil_r.
  - destruct (decide (c = sep)) as [->|Hne].
    + intros [= _ Habs]. by apply split_on_from_nonempty in Habs.
    + intros Hs. destruct (IH _ Hs) as (-> & Hn). rewrite snoc_append. split; [done|].
      unfold no_char. cbn [all_chars]. by rewrite bool_decide_eq_false_2.
Qed.

Lemma split_on_from_pair (sep : ascii) (cur s x y : string) :
  split_on_from sep cur s = [x; y] ->
  exists a, s = a +:+ String sep y /\ x = cur +:+ a
            /\ no_char sep a = true /\ no_char sep y = true.
Proof.
  revert cur. induction s as [|c s IH]; intros cur; cbn [split_on_from]; [discriminate|].
  destruct (decide (c = sep)) as [->|Hne].
  - intros [= <- Hs]. apply split_on_from_single in Hs as (-> & Hn).
    exists "". by rewrite append_nil_r.
  - intros Hs. destruct (IH _ Hs) as (a & -> & -> & Ha & Hy).
    exists (String c a). rewrite snoc_append. split; [done|]. split; [done|].
    split; [|done]. unfold no_char. cbn [all_chars]. by rewrite bool_decide_eq_false_2.
Qed.

Lemma line_entry_of_token (dataset ident : string) (c : ascii) (rest : string) :
  plain dataset = true -> plain ident = true -> is_space c = true ->
  line_entry ((dataset +:+ "@" +:+ ident) +:+ String c rest) = inr (dataset, ident).
Proof.
  intros Hd Hi Hc. unfold line_entry, split.
  rewrite split_from_token; [| |done|].
  - change ("" +:+ (dataset +:+ "@" +:+ ident)) with (dataset +:+ String "@" ident).
    unfold split_on. rewrite split_on_from_one by by apply plain_no_at.
    rewrite split_on_from_none by by apply plain_no_at. reflexivity.
  - unfold no_space. rewrite all_chars_append.
    apply plain_no_space in Hd, Hi. unfold no_space in Hd, Hi.
    change ("@" +:+ ident) with (String "@" ident). cbn [all_chars].
    by rewrite Hd, Hi.
  - change ("" +:+ (dataset +:+ "@" +:+ ident)) with (dataset +:+ String "@" ident).
    by destruct dataset.
Qed.

(** X17: a listing line accepted by [get_sorted_snapshots] is one whose first
    field is a dataset and an identifier joined by the only at-sign of the
    field; a blank line is an [IndexError] and any other first field a
    [ValueError]. *)
Theorem line_entry_accepts (line : string) :
  (forall dataset ident,
     line_entry line = inr (dataset, ident)
     <-> exists rest, split line = (dataset +:+ String "@" ident) :: rest
                      /\ no_char "@" dataset = true /\ no_char "@" ident = true)
  /\ (line_entry line = inl IndexError <-> split line = [])
  /\ (line_entry line = inl ValueError
      <-> exists part0 rest, split line = part0 :: rest
            /\ length (split_on "@" part0) <> 2%nat).
Proof.
  unfold line_entry. destruct (split line) as [|part0 rest].
  - split; [|split].
    + intros dataset ident. split; [discriminate | by intros (? & ? & _)].
    + done.
    + split; [discriminate | by intros (? & ? & ? & _)].
  - split; [|split].
    + intros dataset ident. split.
      * destruct (split_on "@" part0) as [|x [|y [|z l]]] eqn:Hs; try discriminate.
        intros [= -> ->]. apply split_on_from_pair in Hs as (a & -> & -> & Ha & Hy).
        exists rest. done.
      * intros (rest' & [= -> ->] & Ha & Hy). unfold split_on.
        rewrite split_on_from_one by done. by rewrite split_on_from_none.
    + split; [by destruct (split_on "@" part0) as [|x [|y [|z l]]] | discriminate].
    + split.
      * intros Hv. exists part0, rest. split; [done|].
        by destruct (split_on "@" part0) as [|x [|y [|z l]]].
      * intros (p0 & r & [= <- <-] & Hlen).
        by destruct (split_on "@" part0) as [|x [|y [|z l]]].
Qed.

(** ** More on the catalog *)

Lemma sorted_snapshots_of_entries (config : Config) (stdout : string)
    (snapshots : gmap string (list date)) :
  sorted_snapshots_of config stdout = inr snapshots ->
  exists entries, listing_entries stdout = inr entries.
Proof.
  unfold sorted_snapshots_of, listing_entries.
  destruct (decide (stdout = "no datasets available")); [by eexists|].
  rewrite scan_lines_entries. destruct (entries_of _) as [exc|es]; [discriminate|].
  by eexists.
Qed.

Lemma entries_of_elem (lines : list string) (es : list (string * string))
    (line : string) (e : string * string) :
  entries_of lines = inr es -> line ∈ lines -> line_entry line = inr e -> e ∈ es.
Proof.
  revert es. induction lines as [|l lines IH]; intros es Hes Hin He.
  - by apply elem_of_nil in Hin.
  - cbn [entries_of] in Hes. destruct (line_entry l) as [exc|e'] eqn:El; [discriminate|].
    destruct (entries_of lines) as [exc|es'] eqn:Er; [discriminate|].
    injection Hes as <-. apply elem_of_cons in Hin as [->|Hin].
    + rewrite He in El. injection El as <-. by left.
    + right. by apply IH.
Qed.

Lemma entries_of_raises (pre post : list string) (line : string) (exc : exn) :
  Forall (fun l => exists e, line_entry l = inr e) pre ->
  line_entry line = inl exc ->
  entries_of (pre ++ line :: post)%list = inl exc.
Proof.
  intros Hpre Hline. induction Hpre as [|l pre (e & He) _ IH]; cbn [app entries_of].
  - by rewrite Hline.
  - by rewrite He, IH.
Qed.

Lemma catalog_elem (config : Config) (stdout : string) (entries : list (string * string))
    (snapshots : gmap string (list date)) (dataset : string) (d : date) :
  listing_entries stdout = inr entries ->
  sorted_snapshots_of config stdout = inr snapshots ->
  d ∈ snapshots !!! dataset
  <-> exists ts, (dataset, ts) ∈ entries
                 /\ strptime_Ymd (get (c_snapshot_prefix config) "") ts = Some d.
Proof.
  intros Hes Hrun.
  destruct (sorted_snapshots_of_lookup config stdout entries Hes) as (snaps' & Hrun' & Hl).
  rewrite Hrun in Hrun'. injection Hrun' as <-. rewrite Hl.
  unfold sort_reverse. rewrite merge_sort_Permutation.
  unfold parsed_dates. rewrite list_elem_of_omap. split.
  - intros ([ds ts] & Hin & Hp). simpl in Hp.
    destruct (decide (ds = dataset)) as [->|]; [|discriminate]. by exists ts.
  - intros (ts & Hin & Hp). exists (dataset, ts). split; [done|]. simpl.
    by rewrite decide_True.
Qed.

(** X18: for a configured prefix without a percent sign, every date of the
    catalog is a date of the calendar, parsed from an identifier listed
    for that dataset that starts with the configured prefix (letter case
    aside): a snapshot without the prefix is never in the catalog. *)
Theorem catalog_dates_are_prefixed_identifiers (config : Config) (stdout : string)
    (snapshots : gmap string (list date)) (dataset : string) (d : date) :
  literal_prefix config ->
  sorted_snapshots_of config stdout = inr snapshots ->
  d ∈ snapshots !!! dataset ->
  valid_date d = true
  /\ exists entries ts rest,
       listing_entries stdout = inr entries
       /\ (dataset, ts) ∈ entries
       /\ strptime_Ymd (get (c_snapshot_prefix config) "") ts = Some d
       /\ match_prefix (get (c_snapshot_prefix config) "") ts = Some rest.
Proof.
  intros _ Hrun Hin.
  destruct (sorted_snapshots_of_entries config stdout snapshots Hrun) as (entries & Hes).
  destruct (proj1 (catalog_elem config stdout entries snapshots dataset d Hes Hrun) Hin)
    as (ts & Hin' & Hp).
  destruct (strptime_Ymd_valid _ _ _ Hp) as (Hv & rest & Hm).
  split; [done|]. by exists entries, ts, rest.
Qed.

Lemma catalog_dates_witness :
  valid_date (jan 10) = true
  /\ exists entries ts rest,
       listing_entries twice_listed = inr entries
       /\ ("tank", ts) ∈ entries
       /\ strptime_Ymd (get (c_snapshot_prefix tank_daily) "") ts = Some (jan 10)
       /\ match_prefix (get (c_snapshot_prefix tank_daily) "") ts = Some rest.
Proof.
  apply (catalog_dates_are_prefixed_identifiers tank_daily twice_listed
           {[ "tank" := [jan 10; jan 10] ]} "tank" (jan 10)).
  - reflexivity.
  - vm_compute. reflexivity.
  - compute_done.
Defined.

(** X19: a listing of at most one line (the header alone, or nothing) gives the
    empty catalog and no error. *)
Theorem header_only_listing_is_empty (config : Config) (stdout : string) :
  (length (splitlines stdout) <= 1)%nat ->
  sorted_snapshots_of config stdout = inr ∅.
Proof.
  intros Hlen. unfold sorted_snapshots_of.
  destruct (decide (stdout = "no datasets available")); [done|].
  destruct (splitlines stdout) as [|header [|line lines]]; simpl in Hlen; [| |lia];
    cbn [tail scan_lines]; by rewrite fmap_empty.
Qed.

Lemma header_only_witness :
  sorted_snapshots_of tank_daily
    ("NAME  USED  AVAIL  REFER  MOUNTPOINT" +:+ String LF "") = inr ∅.
Proof.
  apply (header_only_listing_is_empty tank_daily
           ("NAME  USED  AVAIL  REFER  MOUNTPOINT" +:+ String LF "")).
  vm_compute. lia.
Defined.

(** X20: for a configured prefix without a percent sign, one line after the
    header that gives no (dataset, identifier) pair makes the whole
    catalog query raise the error of the first such line, whatever the
    other lines hold. *)
Theorem malformed_line_raises (config : Config) (stdout : string)
    (pre post : list string) (line : string) (exc : exn) :
  literal_prefix config ->
  stdout <> "no datasets available" ->
  tail (splitlines stdout) = (pre ++ line :: post)%list ->
  Forall (fun l => exists e, line_entry l = inr e) pre ->
  line_entry line = inl exc ->
  sorted_snapshots_of config stdout = inl exc.
Proof.
  intros _ Hne Hlines Hpre Hline. unfold sorted_snapshots_of.
  rewrite decide_False by done. rewrite scan_lines_entries, Hlines.
  by rewrite (entries_of_raises pre post line exc).
Qed.

Lemma malformed_line_witness :
  sorted_snapshots_of tank_daily (Sim.render ["tank@20240109"; "tank"]) = inl ValueError.
Proof.
  apply (malformed_line_raises tank_daily (Sim.render ["tank@20240109"; "tank"])
           ["tank@20240109  0B  -  24K  -"] [] "tank  0B  -  24K  -" ValueError).
  - reflexivity.
  - compute_done.
  - vm_compute. reflexivity.
  - constructor; [|constructor]. exists ("tank", "20240109"). vm_compute. reflexivity.
  - vm_compute. reflexivity.
Defined.

(** X21: the catalog does not depend on the order of the listing: two listings
    whose pairs are a rearrangement of each other give, for every dataset,
    the same sequence. *)
Theorem catalog_ignores_listing_order (config : Config) (stdout1 stdout2 : string)
    (es1 es2 : list (string * string)) (s1 s2 : gmap string (list date)) :
  listing_entries stdout1 = inr es1 -> listing_entries stdout2 = inr es2 ->
  es1 ≡ₚ es2 ->
  sorted_snapshots_of config stdout1 = inr s1 ->
  sorted_snapshots_of config stdout2 = inr s2 ->
  forall dataset, s1 !!! dataset = s2 !!! dataset.
Proof.
  intros He1 He2 Hperm Hr1 Hr2 dataset.
  destruct (sorted_snapshots_of_lookup config stdout1 es1 He1) as (s1' & Hr1' & Hl1).
  destruct (sorted_snapshots_of_lookup config stdout2 es2 He2) as (s2' & Hr2' & Hl2).
  rewrite Hr1 in Hr1'. rewrite Hr2 in Hr2'. injection Hr1' as <-. injection Hr2' as <-.
  rewrite Hl1, Hl2. unfold sort_reverse.
  apply (Sorted_unique date_ge).
  - apply Sorted_merge_sort, _.
  - apply Sorted_merge_sort, _.
  - rewrite !merge_sort_Permutation. unfold parsed_dates. by rewrite Hperm.
Qed.

Lemma catalog_order_witness :
  (({[ "tank" := [jan 10; jan 9] ]} : gmap string (list date)) !!! "tank" : list date)
  = ({[ "tank" := [jan 10; jan 9] ]} : gmap string (list date)) !!! "tank".
Proof.
  refine (catalog_ignores_listing_order tank_daily
           (Sim.render ["tank@20240109"; "tank@20240110"])
           (Sim.render ["tank@20240110"; "tank@20240109"])
           [("tank", "20240109"); ("tank", "20240110")]
           [("tank", "20240110"); ("tank", "20240109")] _ _ _ _ _ _ _ "tank").
  - vm_compute. reflexivity.
  - vm_compute. reflexivity.
  - apply perm_swap.
  - vm_compute. reflexivity.
  - vm_compute. reflexivity.
Defined.

(** ** More on whole runs *)

Section MoreRunFacts.
Context {World : Type} `{Backend World}.

Lemma listing_dates_valid (config : Config) (w : World)
    (snapshots : gmap string (list date)) (dataset : string) (d : date) :
  listing config w = inr snapshots -> d ∈ snapshots !!! dataset -> valid_date d = true.
Proof.
  unfold listing. destruct (zfs_list w) as [stdout|]; [|discriminate].
  intros Hrun Hin.
  destruct (sorted_snapshots_of_entries config stdout snapshots Hrun) as (entries & Hes).
  destruct (proj1 (catalog_elem config stdout entries snapshots dataset d Hes Hrun) Hin)
    as (ts & _ & Hp).
  by destruct (strptime_Ymd_valid _ _ _ Hp).
Qed.

(** X15: a listing that shows, as the first field of a line, the name [main]
    gives today's snapshot makes a due dataset be skipped: only the
    warning is logged (dataset and prefix free of white space and
    at-signs, the prefix also free of percent signs, today a valid date of
    a four-digit year). *)
Theorem listed_today_is_skipped (config : Config) (dry_run : bool) (today : date)
    (dc : ValidatedDatasetEntry) (w : World) (stdout : string)
    (snapshots : gmap string (list date)) (c : ascii) (rest : string) :
  is_due dc today = true ->
  valid_date today = true -> 1000 <= year today ->
  plain (v_name dc) = true -> plain (get (c_snapshot_prefix config) "") = true ->
  literal_prefix config ->
  is_space c = true ->
  zfs_list w = Some stdout ->
  sorted_snapshots_of config stdout = inr snapshots ->
  (snapshot_name config dc today +:+ String c rest) ∈ tail (splitlines stdout) ->
  process_dataset config dry_run today dc w
  = (inr tt, (w, [Listed; Log WARNING (AlreadyExists (snapshot_name config dc today))])).
Proof.
  intros Hdue Hv _ Hname Hprefix _ Hc Hlist Hrun Hin.
  destruct (sorted_snapshots_of_entries config stdout snapshots Hrun) as (entries & Hes).
  assert (today ∈ snapshots !!! v_name dc) as Htoday.
  { apply (catalog_elem config stdout entries snapshots (v_name dc) today Hes Hrun).
    exists (get (c_snapshot_prefix config) "" +:+ strftime_Ymd today).
    split; [|by apply strptime_strftime].
    unfold listing_entries in Hes.
    destruct (decide (stdout = "no datasets available")) as [->|_].
    { vm_compute in Hin. by apply elem_of_nil in Hin. }
    apply (entries_of_elem _ _ _ _ Hes Hin). unfold snapshot_name.
    apply line_entry_of_token; [done| |done].
    pose proof (strftime_Ymd_plain today) as Hymd.
    unfold plain in *. by rewrite all_chars_append, Hprefix, Hymd. }
  unfold process_dataset. rewrite Hdue. cbn [negb].
  unfold bind at 1. unfold get_sorted_snapshots, listing. rewrite Hlist, Hrun.
  rewrite decide_True by done. reflexivity.
Qed.

Lemma process_dataset_commands (config : Config) (dry_run : bool) (today : date)
    (dc : ValidatedDatasetEntry) (w : World) (cmd : list string) :
  cmd ∈ commands (process_dataset config dry_run today dc w).2.2 ->
  cmd = zfs_cmd "snapshot" dc (snapshot_name config dc today)
  \/ exists d, valid_date d = true
               /\ cmd = zfs_cmd "destroy" dc (snapshot_name config dc d).
Proof.
  destruct (is_due dc today) eqn:Hdue.
  2:{ unfold process_dataset. rewrite Hdue. cbn. by intros ?%elem_of_nil. }
  destruct (listing config w) as [exc|snapshots] eqn:Hl.
  { unfold process_dataset. rewrite Hdue. cbn [negb].
    unfold bind, get_sorted_snapshots. rewrite Hl. cbn. by intros ?%elem_of_nil. }
  destruct (decide (today ∈ snapshots !!! v_name dc)) as [Hin|Hnin].
  { unfold process_dataset. rewrite Hdue. cbn [negb].
    unfold bind at 1. unfold get_sorted_snapshots. rewrite Hl.
    rewrite decide_True by done. cbn. by intros ?%elem_of_nil. }
  destruct (process_dataset_fresh config dry_run today dc w snapshots Hdue Hl Hnin)
    as (w1 & t1 & Hrun & ->).
  destruct (run_unless_returns dry_run
              (zfs_cmd "snapshot" dc (snapshot_name config dc today)) w)
    as (w1' & t1' & Hrun' & _ & Hc1 & _).
  rewrite Hrun in Hrun'. injection Hrun' as <- <-.
  destruct (listing config w1) as [exc|snapshots1] eqn:Hl1.
  - rewrite (cleanup_raises _ _ _ _ _ Hl1). cbn [snd].
    rewrite !commands_cons, commands_app, Hc1. cbn [commands omap app].
    destruct dry_run; [by intros ?%elem_of_nil|].
    rewrite app_nil_r. intros ->%list_elem_of_singleton. by left.
  - destruct (cleanup_returns config dry_run dc w1 snapshots1 Hl1) as (w2 & t2 & -> & _ & Hc2).
    cbn [snd]. rewrite !commands_cons, commands_app, Hc1, Hc2.
    destruct dry_run; [by intros ?%elem_of_nil|].
    cbn [app]. intros [->|Hin]%elem_of_cons; [by left|]. right.
    apply list_elem_of_fmap in Hin as (d & -> & Hd).
    exists d. split; [|done].
    apply elem_of_elements in Hd. unfold delete_set in Hd.
    apply elem_of_difference in Hd as [Hd _]. apply elem_of_list_to_set in Hd.
    by apply (listing_dates_valid config w1 snapshots1 (v_name dc)).
Qed.

Lemma for_each_commands (config : Config) (dry_run : bool) (today : date)
    (dcs : list ValidatedDatasetEntry) (w : World) (cmd : list string) :
  cmd ∈ commands (for_each (process_dataset config dry_run today) dcs w).2.2 ->
  exists dc, dc ∈ dcs
    /\ (cmd = zfs_cmd "snapshot" dc (snapshot_name config dc today)
        \/ exists d, valid_date d = true
                     /\ cmd = zfs_cmd "destroy" dc (snapshot_name config dc d)).
Proof.
  revert w. induction dcs as [|dc dcs IH]; intros w; cbn [for_each].
  - cbn. by intros ?%elem_of_nil.
  - unfold bind.
    pose proof (process_dataset_commands config dry_run today dc w cmd) as Hhead.
    destruct (process_dataset config dry_run today dc w) as [[exc|[]] [w1 t1]].
    + cbn [snd] in *. intros Hin. exists dc. split; [by left | by apply Hhead].
    + specialize (IH w1).
      destruct (for_each (process_dataset config dry_run today) dcs w1) as [r [w2 t2]].
      cbn [snd] in *. rewrite commands_app, elem_of_app. intros [Hin|Hin].
      * exists dc. split; [by left | by apply Hhead].
      * destruct (IH Hin) as (dc' & Hdc' & Hshape). exists dc'. split; [by right | done].
Qed.

(** X14: besides the listing query, every command a run passes to the
    backend is a [zfs snapshot] or a [zfs destroy], recursive exactly when
    the dataset is, of a name that starts with the name of a dataset of
    the validated configuration, an at-sign and the configured prefix: no
    command ever names another dataset or a snapshot without the
    prefix. *)
Theorem commands_target_configured_datasets (config : Config) (dry_run : bool)
    (zfs_path : option string) (today : date) (w : World)
    (dcs : list ValidatedDatasetEntry) (cmd : list string) :
  get_dataset_configs config = inr dcs ->
  cmd ∈ commands (main config dry_run zfs_path today w).2.2 ->
  exists dc suffix, dc ∈ dcs
    /\ (cmd = zfs_cmd "snapshot" dc
                (v_name dc +:+ "@" +:+ get (c_snapshot_prefix config) "" +:+ suffix)
        \/ cmd = zfs_cmd "destroy" dc
                   (v_name dc +:+ "@" +:+ get (c_snapshot_prefix config) "" +:+ suffix)).
Proof.
  intros Hcfg. unfold main. rewrite Hcfg.
  destruct zfs_path as [p|]; [|cbn; by intros ?%elem_of_nil].
  unfold bind at 1. unfold log. unfold bind at 1.
  assert (cmd ∈ commands (for_each (process_dataset config dry_run today) dcs w).2.2 ->
          exists dc suffix, dc ∈ dcs
            /\ (cmd = zfs_cmd "snapshot" dc
                        (v_name dc +:+ "@" +:+ get (c_snapshot_prefix config) "" +:+ suffix)
                \/ cmd = zfs_cmd "destroy" dc
                           (v_name dc +:+ "@" +:+ get (c_snapshot_prefix config) ""
                            +:+ suffix))) as Hloop.
  { intros Hin.
    destruct (for_each_commands config dry_run today dcs w cmd Hin)
      as (dc & Hdc & [->|(d & _ & ->)]).
    - exists dc, (strftime_Ymd today). split; [done|]. by left.
    - exists dc, (strftime_Ymd d). split; [done|]. by right. }
  destruct (for_each (process_dataset config dry_run today) dcs w) as [[exc|[]] [w1 t1]];
    cbn [snd ret app] in *.
  - by rewrite commands_cons.
  - by rewrite commands_cons, app_nil_r.
Qed.

End MoreRunFacts.

Lemma nothing_due_witness :
  main weekly_config false (Some "/sbin/zfs") (jan 10) two_days_world
  = (inr 0, (two_days_world,
             Log DEBUG (ParsedConfigs [weekly_entry])
             :: map (fun dc => Log DEBUG (NoSnapshotScheduled (v_name dc))) [weekly_entry])).
Proof.
  apply (nothing_due_nothing_done weekly_config false "/sbin/zfs" (jan 10)
           [weekly_entry] two_days_world).
  - reflexivity.
  - constructor; [reflexivity | constructor].
Defined.

Lemma no_counts_witness :
  exists dcs,
    get_dataset_configs idle_config = inr dcs
    /\ main idle_config false (Some "/sbin/zfs") (jan 7) two_days_world
       = (inr 0, (two_days_world,
                  Log DEBUG (ParsedConfigs dcs)
                  :: map (fun dc => Log DEBUG (NoSnapshotScheduled (v_name dc))) dcs)).
Proof.
  apply (no_counts_nothing_done idle_config false "/sbin/zfs" (jan 7) two_days_world).
  - reflexivity.
  - reflexivity.
  - reflexivity.
  - repeat constructor; by eexists.
Defined.

Lemma dry_run_announces_witness :
  exists t,
    process_dataset tank_daily true (jan 10) tank_daily_entry two_days_world
    = (inr tt, (two_days_world,
                Listed :: Log INFO (Creating (snapshot_name tank_daily tank_daily_entry (jan 10)))
                :: Log DEBUG (RunningCommand
                     (zfs_cmd "snapshot" tank_daily_entry
                        (snapshot_name tank_daily tank_daily_entry (jan 10))))
                :: Listed :: t))
    /\ destroy_requests t
       = map (snapshot_name tank_daily tank_daily_entry)
             (elements (delete_set tank_daily_entry
                (({[ "tank" := [jan 9; jan 8] ]} : gmap string (list date))
                   !!! v_name tank_daily_entry)))
    /\ commands t = [].
Proof.
  apply (dry_run_announces tank_daily (jan 10) tank_daily_entry two_days_world
           {[ "tank" := [jan 9; jan 8] ]}).
  - reflexivity.
  - vm_compute. reflexivity.
  - compute_done.
Defined.

Lemma listing_failure_witness :
  main tank_daily false (Some "/sbin/zfs") (jan 10) filesystem_row_world
  = (inl ValueError,
     (filesystem_row_world,
      Log DEBUG (ParsedConfigs ([] ++ tank_daily_entry :: [])%list)
      :: (map (fun dc' => Log DEBUG (NoSnapshotScheduled (v_name dc'))) [] ++ [Listed])%list)).
Proof.
  apply (listing_failure_escapes tank_daily false "/sbin/zfs" (jan 10) [] []
           tank_daily_entry filesystem_row_world ValueError).
  - reflexivity.
  - constructor.
  - reflexivity.
  - vm_compute. reflexivity.
Defined.

Lemma listed_today_witness :
  process_dataset tank_daily false (jan 10) tank_daily_entry today_listed_world
  = (inr tt, (today_listed_world,
              [Listed;
               Log WARNING (AlreadyExists (snapshot_name tank_daily tank_daily_entry (jan 10)))])).
Proof.
  apply (listed_today_is_skipped tank_daily false (jan 10) tank_daily_entry
           today_listed_world (Sim.render ["tank@20240109"; "tank@20240110"])
           {[ "tank" := [jan 10; jan 9] ]} " "%char " 0B  -  24K  -").
  - reflexivity.
  - reflexivity.
  - simpl. lia.
  - reflexivity.
  - reflexivity.
  - reflexivity.
  - reflexivity.
  - reflexivity.
  - vm_compute. reflexivity.
  - compute_done.
Defined.

Lemma commands_target_witness :
  exists dc suffix, dc ∈ [tank_daily_entry]
    /\ (["zfs"; "destroy"; "-r"; "tank@20240109"]
        = zfs_cmd "snapshot" dc
            (v_name dc +:+ "@" +:+ get (c_snapshot_prefix tank_daily) "" +:+ suffix)
        \/ ["zfs"; "destroy"; "-r"; "tank@20240109"]
           = zfs_cmd "destroy" dc
               (v_name dc +:+ "@" +:+ get (c_snapshot_prefix tank_daily) "" +:+ suffix)).
Proof.
  apply (commands_target_configured_datasets tank_daily false (Some "/sbin/zfs") (jan 10)
           two_days_world [tank_daily_entry] ["zfs"; "destroy"; "-r"; "tank@20240109"]).
  - reflexivity.
  - compute_done.
Defined.

(** ** Exit statuses *)

Section ExitStatus.
Context {World : Type} `{Backend World}.

(** How a run of [main] can end. *)
Lemma main_result_cases (config : Config) (dry_run : bool) (zfs_path : option string)
    (today : date) (w : World) :
  exists r w1 t,
    main config dry_run zfs_path today w = (r, (w1, t))
    /\ ((zfs_path = None /\ r = inr 2)
        \/ (zfs_path <> None /\ (exists exc, get_dataset_configs config = inl exc)
            /\ r = inr 3)
        \/ (zfs_path <> None /\ (exists dcs, get_dataset_configs config = inr dcs)
            /\ (r = inr 0 \/ exists exc, r = inl exc /\ listing config w1 = inl exc))).
Proof.
  unfold main. destruct zfs_path as [p|]; [|eexists _, _, _; split; [reflexivity | by left] ].
  destruct (get_dataset_configs config) as [exc|dcs] eqn:Hcfg.
  - eexists _, _, _. split; [reflexivity|]. right. left.
    split; [done|]. split; [by eexists | done].
  - destruct (for_each_process config dry_run today dcs w)
      as (r & w1 & t & Hrun & Hcases).
    unfold bind at 1. unfold log. unfold bind at 1. rewrite Hrun.
    destruct Hcases as [(-> & _)|(exc & -> & Hexc & _)].
    + eexists _, _, _. split; [reflexivity|]. right. right.
      split; [done|]. split; [by eexists | by left].
    + eexists _, _, _. split; [reflexivity|]. right. right.
      split; [done|]. split; [by eexists|]. right. by exists exc.
Qed.


Lemma level_named_known (name : string) :
  name ∈ log_levels ->
  name = "DEBUG" /\ level_named name = DEBUG
  \/ name = "INFO" /\ level_named name = INFO
  \/ name = "WARNING" /\ level_named name = WARNING
  \/ name = "ERROR" /\ level_named name = ERROR
  \/ name = "CRITICAL" /\ level_named name = CRITICAL.
Proof.
  unfold log_levels. rewrite !elem_of_cons, elem_of_nil.
  intros [->|[->|[->|[->|[->|[]]]]]]; auto 10.
Qed.

(** X13: the exit status of the program: 1 exactly when the logging level is
    not a level name (then [main] is not run and the storage is
    untouched) or an exception escaped [main]; otherwise the status of
    [main].  A level given on the command line (and not empty) replaces
    the one of the configuration file; without it the level is the one
    of the configuration file, and without either it is [INFO]. *)
Theorem cli_exit_status (args : Args) (config : Config) (zfs_path : option string)
    (today : date) (w : World) :
  (resolved_log_level args config ∉ log_levels ->
     cli args config zfs_path today w
     = (1, (w, [BasicConfig CRITICAL; LevelRejected (resolved_log_level args config)])))
  /\ (resolved_log_level args config ∈ log_levels ->
      (forall status, (main config (a_dry_run args) zfs_path today w).1 = inr status ->
         (cli args config zfs_path today w).1 = status /\ status <> 1)
      /\ (forall exc, (main config (a_dry_run args) zfs_path today w).1 = inl exc ->
            (cli args config zfs_path today w).1 = 1)
      /\ (cli args config zfs_path today w).2.1
         = (main config (a_dry_run args) zfs_path today w).2.1)
  /\ (forall name, a_logging args = Some name -> name <> "" ->
        resolved_log_level args config = name)
  /\ (forall name, a_logging args = None \/ a_logging args = Some "" ->
        c_logging config = Some name ->
        resolved_log_level args config = name)
  /\ (a_logging args = None \/ a_logging args = Some "" -> c_logging config = None ->
      resolved_log_level args config = "INFO" /\ "INFO" ∈ log_levels).
Proof.
  split; [|split; [|split; [|split]]].
  - intros Hbad. unfold cli. by rewrite decide_False.
  - intros Hok. unfold cli. rewrite decide_True by done.
    destruct (main_result_cases config (a_dry_run args) zfs_path today w)
      as (r & w1 & t & Hmain & Hcases).
    rewrite Hmain. destruct r as [exc|z]; cbn [fst snd].
    + split; [discriminate|]. split; [done|done].
    + split; [|split; [discriminate|done] ].
      intros status [= <-]. split; [done|]. intros ->.
      destruct Hcases as [(_ & [=])|[(_ & _ & [=])|(_ & _ & [[=]|(e & [=] & _)])]].
  - intros name Hname Hne. unfold resolved_log_level, or_else.
    by rewrite Hname, decide_False.
  - intros name Hargs Hcfg. unfold resolved_log_level, or_else.
    destruct Hargs as [Ha|Ha]; rewrite Ha, Hcfg; [done|]. by rewrite decide_True.
  - intros Hargs Hcfg. unfold resolved_log_level, or_else.
    assert ("INFO" ∈ log_levels) as Hinfo by (unfold log_levels; right; left).
    destruct Hargs as [Ha|Ha]; rewrite Ha, Hcfg; [done|]. by rewrite decide_True.
Qed.

End ExitStatus.

Lemma cli_exit_status_witness :
  cli (mkArgs false None) verbose_config (Some "/sbin/zfs") (jan 10) two_days_world
  = (1, (two_days_world,
         [BasicConfig CRITICAL;
          LevelRejected (resolved_log_level (mkArgs false None) verbose_config)])).
Proof.
  apply (proj1 (cli_exit_status (mkArgs false None) verbose_config (Some "/sbin/zfs")
                  (jan 10) two_days_world)).
  compute_done.
Defined.

(** ** A dry run against the run it previews *)

Lemma take_insert_elem {A} (x : A) (la lb : list A) (n : nat) (y : A) :
  y ∈ take n (la ++ x :: lb)%list -> y = x \/ y ∈ take n (la ++ lb)%list.
Proof.
  revert n. induction la as [|a la IH]; intros [|n]; simpl.
  - by intros ?%elem_of_nil.
  - intros [->|Hin]%elem_of_cons; [by left|]. right.
    apply elem_of_take in Hin as (i & Hi & Hlt).
    apply elem_of_take. exists i. split; [done | lia].
  - by intros ?%elem_of_nil.
  - intros [->|Hin]%elem_of_cons; [right; by left|].
    destruct (IH n Hin) as [->|Hin']; [by left | right; by right].
Qed.

Lemma slice_to_insert_elem {A} (x : A) (la lb : list A) (k : Z) (y : A) :
  0 <= k -> y ∈ slice_to (la ++ x :: lb)%list k -> y = x \/ y ∈ slice_to (la ++ lb)%list k.
Proof.
  intros Hk. rewrite !slice_to_nonneg by done. apply take_insert_elem.
Qed.

Lemma slice_to_filter_insert_elem {A} (P : A -> Prop) `{!forall x, Decision (P x)}
    (x : A) (la lb : list A) (k : Z) (y : A) :
  0 <= k -> y ∈ slice_to (filter P (la ++ x :: lb)%list) k ->
  y = x \/ y ∈ slice_to (filter P (la ++ lb)%list) k.
Proof.
  intros Hk. rewrite !filter_app, filter_cons. destruct (decide (P x)); [|by right].
  by apply slice_to_insert_elem.
Qed.

(** A date inserted anywhere into the sequence never saves another one:
    what the pruning deletes from a sequence that lacks the date it also
    deletes once the date is in (counts not negative). *)
Lemma insert_only_adds_deletions (dc : ValidatedDatasetEntry) (x : date)
    (la lb : list date) :
  counts_nonneg dc -> x ∉ (la ++ lb)%list ->
  delete_set dc (la ++ lb)%list ⊆ delete_set dc (la ++ x :: lb)%list.
Proof.
  intros (Hd & Hw & Hm) Hnin d. unfold delete_set.
  rewrite !elem_of_difference, !elem_of_list_to_set. intros [Hin Hnk].
  split.
  { apply elem_of_app in Hin as [Hin|Hin]; apply elem_of_app; [by left|].
    right. by right. }
  intros Hk. apply Hnk.
  assert (d <> x) as Hne by (intros ->; done).
  revert Hk. unfold keep_set, keep_daily_set, keep_weekly_set, keep_monthly_set.
  rewrite !elem_of_union, !elem_of_list_to_set.
  intros [[Hk|Hk]|Hk].
  - left. left. by destruct (slice_to_insert_elem _ _ _ _ _ Hd Hk).
  - left. right. by destruct (slice_to_filter_insert_elem _ _ _ _ _ _ Hw Hk).
  - right. by destruct (slice_to_filter_insert_elem _ _ _ _ _ _ Hm Hk).
Qed.

Section PreviewFacts.
Context {World : Type} `{Backend World}.

(** X4: a dry run against the real run from the same storage, for a due
    dataset whose snapshot of today is missing and counts that are not
    negative: when the create puts today's date into the catalog of the
    dataset (the sequence read for the pruning is the earlier one with
    today's date inserted at its place), every snapshot whose destruction
    the dry run announces is also requested and executed for destruction
    by the real run.  The real run may destroy more. *)
Theorem dry_run_announces_subset (config : Config) (today : date)
    (dc : ValidatedDatasetEntry) (w : World)
    (snapshots snapshots1 : gmap string (list date)) (la lb : list date) (n : string) :
  counts_nonneg dc ->
  is_due dc today = true ->
  listing config w = inr snapshots ->
  snapshots !!! v_name dc = (la ++ lb)%list ->
  today ∉ (la ++ lb)%list ->
  listing config (zfs_run (zfs_cmd "snapshot" dc (snapshot_name config dc today)) w).2
  = inr snapshots1 ->
  snapshots1 !!! v_name dc = (la ++ today :: lb)%list ->
  n ∈ destroy_requests (process_dataset config true today dc w).2.2 ->
  n ∈ destroy_requests (process_dataset config false today dc w).2.2
  /\ zfs_cmd "destroy" dc n ∈ commands (process_dataset config false today dc w).2.2.
Proof.
  intros Hnn Hdue Hl Hcat Hnin Hl1 Hcat1.
  assert (today ∉ snapshots !!! v_name dc) as Hnin' by (by rewrite Hcat).
  assert (destroy_requests (process_dataset config true today dc w).2.2
          = map (snapshot_name config dc)
                (elements (delete_set dc (snapshots !!! v_name dc)))) as Hdry.
  { destruct (process_dataset_fresh config true today dc w snapshots Hdue Hl Hnin')
      as (wd & td & Hrd & ->).
    assert (wd = w /\ td = []) as [-> ->]
      by (cbv beta iota delta [run_unless] in Hrd; by injection Hrd as <- <-).
    destruct (cleanup_returns config true dc w snapshots Hl) as (w2 & t2 & -> & Hreq & _).
    cbn [snd]. rewrite !destroy_requests_cons, destroy_requests_app, Hreq. reflexivity. }
  assert (destroy_requests (process_dataset config false today dc w).2.2
          = map (snapshot_name config dc)
                (elements (delete_set dc (snapshots1 !!! v_name dc)))
          /\ commands (process_dataset config false today dc w).2.2
             = zfs_cmd "snapshot" dc (snapshot_name config dc today)
               :: map (fun d => zfs_cmd "destroy" dc (snapshot_name config dc d))
                      (elements (delete_set dc (snapshots1 !!! v_name dc))))
    as [Hreal Hcmds].
  { destruct (process_dataset_fresh config false today dc w snapshots Hdue Hl Hnin')
      as (wr & tr & Hrr & ->).
    destruct (run_unless_returns false
                (zfs_cmd "snapshot" dc (snapshot_name config dc today)) w)
      as (wr' & tr' & Hrr' & Hreq & Hcmd & Hw).
    rewrite Hrr in Hrr'. injection Hrr' as <- <-.
    rewrite <- (Hw eq_refl) in Hl1.
    destruct (cleanup_returns config false dc wr snapshots1 Hl1)
      as (w3 & t3 & -> & Hreq3 & Hc3).
    cbn [snd]. split.
    - rewrite !destroy_requests_cons, destroy_requests_app, Hreq, Hreq3. reflexivity.
    - rewrite !commands_cons, commands_app, Hcmd, Hc3. reflexivity. }
  rewrite Hdry, Hreal, Hcmds, Hcat, Hcat1.
  intros Hn. apply list_elem_of_In, in_map_iff in Hn as (d & <- & Hd).
  apply list_elem_of_In, elem_of_elements in Hd.
  apply (insert_only_adds_deletions dc today la lb Hnn Hnin) in Hd.
  apply elem_of_elements, list_elem_of_In in Hd.
  split.
  - apply list_elem_of_In. by apply in_map.
  - right. apply list_elem_of_In.
    by apply (in_map (fun d => zfs_cmd "destroy" dc (snapshot_name config dc d))).
Qed.

End PreviewFacts.

Lemma dry_run_subset_witness :
  "tank@20240109"
    ∈ destroy_requests
        (process_dataset tank_daily false (jan 10) tank_daily_entry later_date_world).2.2
  /\ zfs_cmd "destroy" tank_daily_entry "tank@20240109"
       ∈ commands
           (process_dataset tank_daily false (jan 10) tank_daily_entry later_date_world).2.2.
Proof.
  apply (dry_run_announces_subset tank_daily (jan 10) tank_daily_entry later_date_world
           {[ "tank" := [jan 11; jan 9; jan 8] ]}
           {[ "tank" := [jan 11; jan 10; jan 9; jan 8] ]}
           [jan 11] [jan 9; jan 8] "tank@20240109").
  - unfold counts_nonneg. simpl. lia.
  - reflexivity.
  - vm_compute. reflexivity.
  - vm_compute. reflexivity.
  - compute_done.
  - vm_compute. reflexivity.
  - vm_compute. reflexivity.
  - compute_done.
Defined.

(** The preview is not exact: with one day kept and the 9th and 8th in
    the catalog, a dry run on the 10th announces the 8th alone, the real
    run destroys the 9th and the 8th. *)
Example dry_run_announces_less :
  destroy_requests
    (process_dataset tank_daily true (jan 10) tank_daily_entry two_days_world).2.2
  = ["tank@20240108"]
  /\ commands
       (process_dataset tank_daily false (jan 10) tank_daily_entry two_days_world).2.2
     ≡ₚ [["zfs"; "snapshot"; "-r"; "tank@20240110"];
         ["zfs"; "destroy"; "-r"; "tank@20240108"];
         ["zfs"; "destroy"; "-r"; "tank@20240109"]].
Proof. split; [vm_compute; reflexivity|]. vm_compute. apply perm_skip, perm_swap. Qed.
